(** * eCourts scraper: the extraction engine (main.py) and the job
      orchestrator (flask_app.py), embedded as state-and-exception passing
      programs over an opaque host (browser, clock, file system, processes). *)

From Stdlib Require Import ZArith NArith List String Ascii Bool Lia Floats DecimalString.
From stdpp Require Import base option list gmap.

Local Open Scope N_scope.

(** ** Python values *)

(** A Python [str] is a sequence of Unicode code points. *)
Definition pystr : Type := list N.

(** A string literal of the source. *)
Definition lit (s : string) : pystr := List.map N_of_ascii (list_ascii_of_string s).

(** [f"{n}"] for an [int]. *)
Definition str_of_Z (z : Z) : pystr := lit (NilZero.string_of_int (Z.to_int z)).

Definition str_of_nat (n : nat) : pystr := str_of_Z (Z.of_nat n).

(** [str.isspace] of one code point: the whitespace set of CPython's
    [_PyUnicode_IsWhitespace], which [str.strip] and [str.rstrip] use. *)
Definition isspace (c : N) : bool :=
  ((9 <=? c) && (c <=? 13)) || ((28 <=? c) && (c <=? 32))
  || (c =? 133) || (c =? 160) || (c =? 5760)
  || ((8192 <=? c) && (c <=? 8202))
  || (c =? 8232) || (c =? 8233) || (c =? 8239) || (c =? 8287) || (c =? 12288).

Fixpoint lstrip (s : pystr) : pystr :=
  match s with
  | [] => []
  | c :: t => if isspace c then lstrip t else s
  end.

Fixpoint rstrip (s : pystr) : pystr :=
  match s with
  | [] => []
  | c :: t =>
      match rstrip t with
      | [] => if isspace c then [] else [c]
      | t' => c :: t'
      end
  end.

Definition strip (s : pystr) : pystr := rstrip (lstrip s).

Fixpoint startswith (p s : pystr) : bool :=
  match p, s with
  | [], _ => true
  | _ :: _, [] => false
  | a :: p', b :: s' => (a =? b) && startswith p' s'
  end.

(** [p in s] for strings. *)
Fixpoint contains (p s : pystr) : bool :=
  startswith p s ||
  match s with
  | [] => false
  | _ :: t => contains p t
  end.

(** Truth value of a string, and of an optional string ([None] is false). *)
Definition truthy (s : pystr) : bool :=
  match s with [] => false | _ => true end.

Definition truthy_opt (o : option pystr) : bool :=
  match o with Some s => truthy s | None => false end.

Definition ascii_isalnum (c : N) : bool :=
  ((48 <=? c) && (c <=? 57)) || ((65 <=? c) && (c <=? 90)) || ((97 <=? c) && (c <=? 122)).

(** ** Exceptions *)

Inductive exn_class : Type :=
  | PlaywrightTimeoutError
  | PlaywrightError
  | AttributeError
  | TypeError
  | KeyError
  | ValueError
  | OverflowError
  | RuntimeError
  | FileNotFoundError
  | OSError.

(** An exception below [Exception]: its class and [str(e)]. *)
Record exn : Type := Exn { exn_cls : exn_class; exn_str : pystr }.

Definition is_playwright_timeout (e : exn) : bool :=
  match exn_cls e with PlaywrightTimeoutError => true | _ => false end.

Inductive Res (A : Type) : Type :=
  | Ok (a : A)
  | Raise (e : exn).
Arguments Ok {A} a.
Arguments Raise {A} e.

(** [int(x)] for a float: truncation toward zero. *)
Definition int_of_float (f : float) : Res Z :=
  match Prim2SF f with
  | S754_zero _ => Ok 0%Z
  | S754_finite s m e =>
      let v := if (0 <=? e)%Z then (Z.pos m * 2 ^ e)%Z else (Z.pos m / 2 ^ (- e))%Z in
      Ok (if s then (- v)%Z else v)
  | S754_infinity _ =>
      Raise (Exn OverflowError (lit "cannot convert float infinity to integer"))
  | S754_nan => Raise (Exn ValueError (lit "cannot convert float NaN to integer"))
  end.

(** ** Records of the two programs *)

Inductive log_level : Type := INFO | ERROR.

Record LogRecord : Type :=
  Log { log_lvl : log_level; log_msg : pystr; log_exc_info : bool }.

(** [result_item] of [find_case_by_cnr]. *)
Record CaseRow : Type := mkCaseRow {
  row_text : pystr;
  serial : pystr;
  court : pystr;
  pdf_link : option pystr;
  downloaded_pdf : option pystr
}.

(** [judge_entry] of [download_causelist_for_complex]. *)
Record JudgeEntry : Type := mkJudgeEntry {
  judge_text : pystr;
  judge_pdf_link : option pystr;
  judge_downloaded_pdf : option pystr
}.

(** [out] of [download_causelist_for_complex]. *)
Record CauseList : Type := mkCauseList {
  cl_state : pystr;
  cl_district : pystr;
  cl_complex : pystr;
  cl_date : pystr;
  cl_judges : list JudgeEntry
}.

(** The namespace [parse_args] returns. *)
Record Args : Type := mkArgs {
  a_today : bool;
  a_tomorrow : bool;
  a_date : option pystr;
  a_cnr : option pystr;
  a_case_type : option pystr;
  a_number : option Z;
  a_year : option Z;
  a_state : option pystr;
  a_district : option pystr;
  a_complex : option pystr;
  a_causelist : bool;
  a_download_pdf : bool;
  a_headless : bool;
  a_output : option pystr
}.

(** [result_data] of [main]: a dict with at most these two keys. *)
Record ResultData : Type := mkResultData {
  cases_found : option (list CaseRow);
  cause_list : option CauseList
}.

Definition result_data_nonempty (r : ResultData) : bool :=
  match cases_found r, cause_list r with
  | None, None => false
  | _, _ => true
  end.

(** [metadata] of [main], as [save_json] receives it. *)
Record Metadata : Type := mkMetadata {
  invoked_at : pystr;
  date_checked : pystr;
  md_args : Args;
  md_result : option ResultData
}.

Inductive Printed : Type :=
  | PrintCases (cases : list CaseRow)
  | PrintCauseList (cl : CauseList)
  | PrintText (s : pystr).

Inductive job_status : Type := pending | running | completed | failed.

(** An entry of [JOBS]: a dict with these keys, the last three optional. *)
Record Job : Type := mkJob {
  status : job_status;
  command : pystr;
  output_file : option pystr;
  pdfs : option (list pystr);
  error : option pystr
}.

(** [subprocess.CompletedProcess]. *)
Record CompletedProcess : Type := mkCompleted {
  returncode : Z;
  stdout : pystr;
  stderr : pystr
}.

(** ** The host

    Everything the two programs call but do not define: Playwright's page and
    element handles, the request context, pathlib, datetime, the clock, the
    file system, [subprocess], [uuid] and the Unicode database. Effectful
    operations take the world and return an outcome and the next world. *)
Class Host : Type := {
  World : Type;
  Element : Type;
  Response : Type;
  Path : Type;
  DateTime : Type;
  (** [str.isalnum] above the ASCII range. *)
  unicode_isalnum : N -> bool;
  py_repr : pystr -> pystr;
  (** pathlib *)
  path_of : pystr -> Path;
  path_div : Path -> pystr -> Path;
  path_str : Path -> pystr;
  path_name : Path -> pystr;
  path_parent : Path -> Path;
  (** datetime *)
  datetime_now : World -> DateTime * World;
  add_days : DateTime -> Z -> DateTime;
  fromisoformat : pystr -> Res DateTime;
  strftime : DateTime -> pystr -> pystr;
  isoformat : DateTime -> pystr;
  time_time : World -> float * World;
  (** playwright: session *)
  playwright_enter : World -> Res unit * World;
  playwright_exit : World -> Res unit * World;
  chromium_launch : bool -> World -> Res unit * World;
  new_context : World -> Res unit * World;
  new_page : World -> Res unit * World;
  context_close : World -> Res unit * World;
  browser_close : World -> Res unit * World;
  (** playwright: page *)
  page_goto : pystr -> Z -> World -> Res unit * World;
  page_wait_for_selector : pystr -> option Z -> World -> Res (option Element) * World;
  page_wait_for_load_state : pystr -> Z -> World -> Res unit * World;
  page_query_selector : pystr -> World -> Res (option Element) * World;
  page_query_selector_all : pystr -> World -> Res (list Element) * World;
  locator_fill : pystr -> pystr -> World -> Res unit * World;
  locator_click : pystr -> World -> Res unit * World;
  (** playwright: element handles *)
  elem_fill : Element -> pystr -> World -> Res unit * World;
  elem_click : Element -> World -> Res unit * World;
  elem_select_option : Element -> pystr -> World -> Res unit * World;
  elem_inner_text : Element -> World -> Res pystr * World;
  elem_query_selector : Element -> pystr -> World -> Res (option Element) * World;
  elem_query_selector_all : Element -> pystr -> World -> Res (list Element) * World;
  elem_get_attribute : Element -> pystr -> World -> Res (option pystr) * World;
  (** playwright: request context *)
  request_get : pystr -> Z -> World -> Res Response * World;
  response_ok : Response -> bool;
  response_status : Response -> Z;
  response_body : Response -> World -> Res (list Byte.byte) * World;
  (** file system *)
  mkdir_parents : Path -> World -> Res unit * World;
  write_bytes : Path -> list Byte.byte -> World -> Res unit * World;
  write_json : Path -> Metadata -> World -> Res unit * World;
  glob_sorted : Path -> pystr -> World -> Res (list Path) * World;
  path_exists : Path -> World -> Res bool * World;
  stat_mtime : Path -> World -> Res float * World;
  (** processes *)
  print_stdout : Printed -> World -> Res unit * World;
  subprocess_run : list (option pystr) -> World -> Res CompletedProcess * World;
  uuid4_hex10 : World -> pystr * World
}.

(** ** State and exceptions

    A running function sees the world, the records the [logging] module has
    emitted, and a frame of mutable objects it shares with its callees (a list
    being appended to, the job registry). A raised exception keeps the state
    reached so far. *)
Section Monad.
Context {H : Host}.

Record St (L : Type) : Type := mkSt {
  world : World;
  logs : list LogRecord;
  frame : L
}.
Arguments mkSt {L} _ _ _.
Arguments world {L} _.
Arguments logs {L} _.
Arguments frame {L} _.

Definition M (L A : Type) : Type := St L -> Res A * St L.

Definition ret {L A} (a : A) : M L A := fun st => (Ok a, st).

Definition bind {L A B} (m : M L A) (k : A -> M L B) : M L B :=
  fun st =>
    match m st with
    | (Ok a, st') => k a st'
    | (Raise e, st') => (Raise e, st')
    end.

Definition raise {L A} (e : exn) : M L A := fun st => (Raise e, st).

(** [try: body / except Exception as e: handler e]. *)
Definition try_except {L A} (body : M L A) (handler : exn -> M L A) : M L A :=
  fun st =>
    match body st with
    | (Ok a, st') => (Ok a, st')
    | (Raise e, st') => handler e st'
    end.

(** [try: body / finally: fin]. *)
Definition try_finally {L A} (body : M L A) (fin : M L unit) : M L A :=
  fun st =>
    match body st with
    | (Ok a, st') =>
        match fin st' with
        | (Ok _, st'') => (Ok a, st'')
        | (Raise e, st'') => (Raise e, st'')
        end
    | (Raise e, st') =>
        match fin st' with
        | (Ok _, st'') => (Raise e, st'')
        | (Raise e', st'') => (Raise e', st'')
        end
    end.

(** A host operation, run on the world of the state. *)
Definition lift {L A} (op : World -> Res A * World) : M L A :=
  fun st => let (r, w) := op (world st) in (r, mkSt w (logs st) (frame st)).

(** A host operation that cannot raise. *)
Definition lift_total {L A} (op : World -> A * World) : M L A :=
  fun st => let (a, w) := op (world st) in (Ok a, mkSt w (logs st) (frame st)).

Definition of_res {L A} (r : Res A) : M L A := fun st => (r, st).

Definition logging_info {L} (msg : pystr) : M L unit :=
  fun st => (Ok tt, mkSt (world st) (logs st ++ [Log INFO msg false]) (frame st)).

Definition logging_error {L} (msg : pystr) (exc_info : bool) : M L unit :=
  fun st => (Ok tt, mkSt (world st) (logs st ++ [Log ERROR msg exc_info]) (frame st)).

Definition get_frame {L} : M L L := fun st => (Ok (frame st), st).

Definition modify_frame {L} (f : L -> L) : M L unit :=
  fun st => (Ok tt, mkSt (world st) (logs st) (f (frame st))).

(** Run [body] with a fresh local object [init]; the caller's frame is
    untouched, the world and the log are shared. *)
Definition with_local {L L' A} (init : L') (body : M L' A) : M L A :=
  fun st =>
    let (r, st') := body (mkSt (world st) (logs st) init) in
    (r, mkSt (world st') (logs st') (frame st)).

(** [for x in xs: body x]. *)
Fixpoint for_each {L A} (xs : list A) (body : A -> M L unit) : M L unit :=
  match xs with
  | [] => ret tt
  | x :: rest => bind (body x) (fun _ => for_each rest body)
  end.

(** [for idx, x in enumerate(xs): body idx x], counting from [idx]. *)
Fixpoint for_each_from {L A} (idx : nat) (xs : list A) (body : nat -> A -> M L unit)
  : M L unit :=
  match xs with
  | [] => ret tt
  | x :: rest => bind (body idx x) (fun _ => for_each_from (S idx) rest body)
  end.

(** The call of the method named [attr] on the result of [wait_for_selector],
    which is [None] when the wait was for a hidden or detached element. *)
Definition on_element {L A} (el : option Element) (attr : pystr)
    (method : Element -> M L A) : M L A :=
  match el with
  | Some e => method e
  | None =>
      raise (Exn AttributeError
               (lit "'NoneType' object has no attribute '" ++ attr ++ lit "'"))
  end.

(** [m] keeps a property of the frame. *)
Definition frame_inv {L A} (P : L -> Prop) (m : M L A) : Prop :=
  forall st, P (frame st) -> P (frame (snd (m st))).

End Monad.

Arguments mkSt {H L} _ _ _.
Arguments world {H L} _.
Arguments logs {H L} _.
Arguments frame {H L} _.

Notation "'let*' x ':=' m 'in' k" := (bind m (fun x => k))
  (at level 10, x name, m at level 100, k at level 200).
Notation "m ';;;' k" := (bind m (fun _ => k))
  (at level 100, k at level 200, right associativity).

Section Engine.
Context {H : Host}.

Definition ECOURTS_CAUSELIST_URL : pystr :=
  lit "https://services.ecourts.gov.in/ecourtindia_v6/?p=cause_list/".
Definition STATE_SELECT : pystr := lit "select[id*='state'], select[name*='state']".
Definition DISTRICT_SELECT : pystr := lit "select[id*='district'], select[name*='district']".
Definition COMPLEX_SELECT : pystr :=
  lit "select[id*='courtComplex'], select[name*='court_complex']".
Definition DATE_INPUT : pystr :=
  lit "input[type='date'], input[id*='date'], input[placeholder*='Date']".
Definition SUBMIT_BUTTON : pystr :=
  lit "button:has-text('Get'), button:has-text('Search'), button[title*='Search']".
Definition CNR_INPUT : pystr :=
  lit "input[placeholder*='CNR'], input[id*='cnr'], input[name*='cnr']".
Definition RESULTS_ROW : pystr :=
  lit "table.causelist tr, div.causeListRow, .cl-row, .case-row".
Definition PDF_ANCHOR : pystr := lit "a[href$='.pdf']".

Definition OUTPUT_DIR : Path := path_of (lit "outputs").
Definition PDF_DIR : Path := path_div OUTPUT_DIR (lit "pdfs").

(** [download_attachment(page, url, filename)]. *)
Definition download_attachment {L} (url : pystr) (filename : Path) : M L (option Path) :=
  try_except
    (logging_info (lit "Downloading " ++ url ++ lit " to " ++ path_str filename ++ lit "...") ;;;
     let* response := lift (request_get url 60000) in
     if response_ok response then
       lift (mkdir_parents (path_parent filename)) ;;;
       let* body := lift (response_body response) in
       lift (write_bytes filename body) ;;;
       logging_info (lit "Successfully saved " ++ path_str filename) ;;;
       ret (Some filename)
     else
       logging_error (lit "Failed to download (" ++ str_of_Z (response_status response)
                        ++ lit ") from " ++ url) false ;;;
       ret None)
    (fun e =>
       logging_error (lit "Exception during download of " ++ url ++ lit ": " ++ exn_str e) false ;;;
       ret None).

(** [cells[i].inner_text().strip() if len(cells) > i else "N/A"]. *)
Definition cell_text {L} (cells : list Element) (i : nat) : M L pystr :=
  match cells !! i with
  | Some c => let* t := lift (elem_inner_text c) in ret (strip t)
  | None => ret (lit "N/A")
  end.

(** The body of [for r in rows] in [find_case_by_cnr]; the frame is
    [results]. *)
Definition cnr_row (cnr : pystr) (should_download : bool) (r : Element)
  : M (list CaseRow) unit :=
  let* t := lift (elem_inner_text r) in
  let txt := strip t in
  if negb (truthy txt) || negb (contains cnr txt) then ret tt
  else
    let* cells := lift (elem_query_selector_all r (lit "td")) in
    let* serial := cell_text cells 0 in
    let* court := cell_text cells 1 in
    let* pdf_anchor := lift (elem_query_selector r PDF_ANCHOR) in
    let* pdf_link :=
      match pdf_anchor with
      | Some a => lift (elem_get_attribute a (lit "href"))
      | None => ret None
      end in
    let result_item := mkCaseRow txt serial court pdf_link None in
    let* result_item :=
      match pdf_link with
      | Some url =>
          if should_download && truthy url then
            let* now := lift_total time_time in
            let* secs := of_res (int_of_float now) in
            let filename := path_div PDF_DIR (cnr ++ lit "_" ++ str_of_Z secs ++ lit ".pdf") in
            let* saved_path := download_attachment url filename in
            match saved_path with
            | Some p => ret (mkCaseRow txt serial court pdf_link (Some (path_str p)))
            | None => ret result_item
            end
          else ret result_item
      | None => ret result_item
      end in
    modify_frame (fun results => results ++ [result_item]).

(** The [try] block of [find_case_by_cnr], up to the submit click. *)
Definition cnr_submit (cnr : pystr) : M (list CaseRow) unit :=
  logging_info (lit "Navigating to eCourts cause list page for CNR: " ++ cnr) ;;;
  lift (page_goto ECOURTS_CAUSELIST_URL 60000) ;;;
  let* cnr_input := lift (page_wait_for_selector CNR_INPUT (Some 15000%Z)) in
  on_element cnr_input (lit "fill") (fun el => lift (elem_fill el cnr)) ;;;
  let* submit_btn := lift (page_query_selector SUBMIT_BUTTON) in
  match submit_btn with
  | Some b => lift (elem_click b)
  | None => ret tt
  end.

(** The wait for network quiescence that follows. *)
Definition cnr_settle : M (list CaseRow) unit :=
  lift (page_wait_for_load_state (lit "networkidle") 30000).

(** The rest of the [try] block: the result rows. *)
Definition cnr_extract (cnr : pystr) (should_download : bool) : M (list CaseRow) unit :=
  let* rows := lift (page_query_selector_all RESULTS_ROW) in
  logging_info (lit "Found " ++ str_of_nat (length rows) ++ lit " potential result rows.") ;;;
  for_each rows (cnr_row cnr should_download).

(** The [try] block of [find_case_by_cnr]. *)
Definition cnr_try (cnr : pystr) (should_download : bool) : M (list CaseRow) unit :=
  cnr_submit cnr ;;;
  cnr_settle ;;;
  cnr_extract cnr should_download.

(** The two [except] clauses of [find_case_by_cnr]. *)
Definition cnr_except {L} (e : exn) : M L unit :=
  if is_playwright_timeout e then
    logging_error
      (lit "Timeout waiting for page elements. The website might be slow or selectors need updating.")
      false
  else
    logging_error (lit "An error occurred during case lookup: " ++ exn_str e) true.

(** [find_case_by_cnr(page, cnr, date_str, should_download)]. *)
Definition find_case_by_cnr {L} (cnr date_str : pystr) (should_download : bool)
  : M L (list CaseRow) :=
  with_local (@nil CaseRow)
    (try_except (cnr_try cnr should_download) cnr_except ;;;
     get_frame).

(** [c.isalnum()]. *)
Definition isalnum (c : N) : bool :=
  if c <? 128 then ascii_isalnum c else unicode_isalnum c.

(** The filter of the judge-label sanitizer:
    [c.isalnum() or c in (' ', '.')]. *)
Definition keep_char (c : N) : bool :=
  isalnum c || (c =? 32) || (c =? 46).

(** ["".join(c for c in judge_text if ...).rstrip()]. *)
Definition sanitize (judge_text : pystr) : pystr :=
  rstrip (List.filter keep_char judge_text).

(** The four request fields of [out]. *)
Definition same_request (s d c dt : pystr) (out : CauseList) : Prop :=
  cl_state out = s /\ cl_district out = d /\ cl_complex out = c /\ cl_date out = dt.

(** The body of [for idx, link in enumerate(judge_links)]; the frame is
    [out]. *)
Definition judge_link (complex_name date_str : pystr) (download_pdfs : bool)
    (idx : nat) (link : Element) : M CauseList unit :=
  let* href := lift (elem_get_attribute link (lit "href")) in
  let* t := lift (elem_inner_text link) in
  let judge_text :=
    if truthy (strip t) then strip t else lit "Judge_" ++ str_of_nat (idx + 1) in
  let judge_entry := mkJudgeEntry judge_text href None in
  let* judge_entry :=
    match href with
    | Some url =>
        if download_pdfs && truthy url then
          let safe_name := sanitize judge_text in
          let filename :=
            path_div PDF_DIR
              (date_str ++ lit "_" ++ complex_name ++ lit "_" ++ safe_name ++ lit ".pdf") in
          let* saved_path := download_attachment url filename in
          match saved_path with
          | Some p => ret (mkJudgeEntry judge_text href (Some (path_str p)))
          | None => ret judge_entry
          end
        else ret judge_entry
    | None => ret judge_entry
    end in
  modify_frame (fun out =>
    mkCauseList (cl_state out) (cl_district out) (cl_complex out) (cl_date out)
                (cl_judges out ++ [judge_entry])).

(** The steps of the [try] block of [download_causelist_for_complex] up to
    and including the wait after the submit click. *)
Definition causelist_form (state district complex_name date_str : pystr)
  : M CauseList unit :=
  logging_info (lit "Fetching cause list for " ++ complex_name ++ lit ", " ++ district
                  ++ lit ", " ++ state ++ lit " on " ++ date_str) ;;;
  lift (page_goto ECOURTS_CAUSELIST_URL 60000) ;;;
  let* sel := lift (page_wait_for_selector STATE_SELECT None) in
  on_element sel (lit "select_option") (fun el => lift (elem_select_option el state)) ;;;
  lift (page_wait_for_load_state (lit "networkidle") 15000) ;;;
  (if truthy district then
     let* sel := lift (page_wait_for_selector DISTRICT_SELECT None) in
     on_element sel (lit "select_option")
       (fun el => lift (elem_select_option el district)) ;;;
     lift (page_wait_for_load_state (lit "networkidle") 15000)
   else ret tt) ;;;
  (if truthy complex_name then
     let* sel := lift (page_wait_for_selector COMPLEX_SELECT None) in
     on_element sel (lit "select_option")
       (fun el => lift (elem_select_option el complex_name))
   else ret tt) ;;;
  lift (locator_fill DATE_INPUT date_str) ;;;
  lift (locator_click SUBMIT_BUTTON) ;;;
  lift (page_wait_for_load_state (lit "networkidle") 45000).

(** The rest of the [try] block: scraping the judge links. *)
Definition causelist_scrape (complex_name date_str : pystr) (download_pdfs : bool)
  : M CauseList unit :=
  let* judge_links := lift (page_query_selector_all PDF_ANCHOR) in
  logging_info (lit "Found " ++ str_of_nat (length judge_links)
                  ++ lit " judge cause list PDFs.") ;;;
  for_each_from 0 judge_links (judge_link complex_name date_str download_pdfs).

(** The two [except] clauses of [download_causelist_for_complex]. *)
Definition causelist_except {L} (e : exn) : M L unit :=
  if is_playwright_timeout e then
    logging_error
      (lit "Timeout waiting for elements. The website might be slow or the selectors are outdated.")
      false
  else
    logging_error (lit "An error occurred downloading the cause list: " ++ exn_str e) true.

(** [download_causelist_for_complex(page, state, district, complex_name,
    date_str, download_pdfs)]. *)
Definition download_causelist_for_complex {L}
    (state district complex_name date_str : pystr) (download_pdfs : bool)
  : M L CauseList :=
  with_local (mkCauseList state district complex_name date_str [])
    (try_except
       (causelist_form state district complex_name date_str ;;;
        causelist_scrape complex_name date_str download_pdfs)
       causelist_except ;;;
     get_frame).

(** [get_date_to_check(args)]. *)
Definition get_date_to_check {L} (args : Args) : M L pystr :=
  let* dt :=
    if a_today args then lift_total datetime_now
    else if a_tomorrow args then
      let* now := lift_total datetime_now in ret (add_days now 1)
    else
      match a_date args with
      | Some d => if truthy d then of_res (fromisoformat d) else lift_total datetime_now
      | None => lift_total datetime_now
      end in
  ret (strftime dt (lit "%Y-%m-%d")).

(** [save_json(data, basename)]. *)
Definition save_json {L} (data : Metadata) (basename : option pystr) : M L Path :=
  let* now := lift_total datetime_now in
  let ts := strftime now (lit "%Y%m%d_%H%M%S") in
  let base :=
    match basename with
    | Some b => if truthy b then b else lit "ecourts_result"
    | None => lit "ecourts_result"
    end in
  let fname := path_div OUTPUT_DIR (base ++ lit "_" ++ ts ++ lit ".json") in
  lift (write_json fname data) ;;;
  ret fname.

Definition opt_str (o : option pystr) : pystr :=
  match o with Some s => s | None => lit "None" end.

(** The [if args.cnr / elif args.causelist / else] of [main], which fills
    [result_data]. *)
Definition main_action {L} (args : Args) (date_str : pystr) : M L ResultData :=
  if truthy_opt (a_cnr args) then
    logging_info (lit "[*] Looking up case by CNR: " ++ opt_str (a_cnr args)) ;;;
    let* cases :=
      find_case_by_cnr (opt_str (a_cnr args)) date_str (a_download_pdf args) in
    lift (print_stdout (PrintCases cases)) ;;;
    ret (mkResultData (Some cases) None)
  else if a_causelist args then
    if negb (truthy_opt (a_state args)) || negb (truthy_opt (a_district args))
       || negb (truthy_opt (a_complex args)) then
      logging_error (lit "[!] --causelist requires --state, --district, and --complex") false ;;;
      ret (mkResultData None None)
    else
      logging_info (lit "[*] Downloading cause list for " ++ opt_str (a_complex args)) ;;;
      let* cl :=
        download_causelist_for_complex (opt_str (a_state args)) (opt_str (a_district args))
          (opt_str (a_complex args)) date_str (a_download_pdf args) in
      lift (print_stdout (PrintCauseList cl)) ;;;
      ret (mkResultData None (Some cl))
  else
    lift (print_stdout (PrintText (lit "[*] No specific action requested. Use --help for usage."))) ;;;
    ret (mkResultData None None).

(** [metadata["result"] = result_data]. *)
Definition set_result (metadata : Metadata) (result_data : ResultData) : Metadata :=
  mkMetadata (invoked_at metadata) (date_checked metadata) (md_args metadata)
             (Some result_data).

(** [main()], given the namespace [parse_args()] returned. *)
Definition main {L} (args : Args) : M L unit :=
  let* date_str := get_date_to_check args in
  lift playwright_enter ;;;
  try_finally
    (lift (chromium_launch (a_headless args)) ;;;
     lift new_context ;;;
     lift new_page ;;;
     let* now := lift_total datetime_now in
     let metadata := mkMetadata (isoformat now) date_str args None in
     let* result_data := main_action args date_str in
     (if result_data_nonempty result_data then
        let* outpath := save_json (set_result metadata result_data) (a_output args) in
        logging_info (lit "[*] Saved output to " ++ path_str outpath)
      else ret tt) ;;;
     lift context_close ;;;
     lift browser_close)
    (lift playwright_exit).

End Engine.

(** ** The job orchestrator (flask_app.py) *)

(** The state the request handlers and the job threads share: the [JOBS]
    dict, and the threads started and not yet run, each with its
    [args=(job_id, cmd)]. *)
Record App : Type := mkApp {
  JOBS : gmap pystr Job;
  threads : list (pystr * list (option pystr))
}.

(** What a request handler returns. *)
Inductive Reply : Type :=
  | RedirectToStatus (job_id : pystr)
  | JobNotFound
  | JobJson (job : Job).

Fixpoint join_strs (sep : pystr) (xs : list pystr) : pystr :=
  match xs with
  | [] => []
  | [x] => x
  | x :: rest => x ++ sep ++ join_strs sep rest
  end.

(** The items of a list when all are [str], or the index of the first
    [None]. *)
Fixpoint all_strs (i : nat) (xs : list (option pystr)) : list pystr + nat :=
  match xs with
  | [] => inl []
  | Some x :: rest =>
      match all_strs (S i) rest with
      | inl l => inl (x :: l)
      | inr k => inr k
      end
  | None :: _ => inr i
  end.

(** [sep.join(xs)]. *)
Definition str_join (sep : pystr) (xs : list (option pystr)) : Res pystr :=
  match all_strs 0 xs with
  | inl l => Ok (join_strs sep l)
  | inr i =>
      Raise (Exn TypeError (lit "sequence item " ++ str_of_nat i
                              ++ lit ": expected str instance, NoneType found"))
  end.

Section Orchestrator.
Context {H : Host}.

(** [JOBS[job_id].update(...)] and [JOBS[job_id][k] = v]: the entry is changed
    in place, and a missing key raises. *)
Definition jobs_update (job_id : pystr) (f : Job -> Job) : M App unit :=
  fun st =>
    match JOBS (frame st) !! job_id with
    | Some j =>
        (Ok tt, mkSt (world st) (logs st)
                  (mkApp (<[job_id := f j]> (JOBS (frame st))) (threads (frame st))))
    | None => (Raise (Exn KeyError (py_repr job_id)), st)
    end.

(** [JOBS[job_id] = job]. *)
Definition jobs_set (job_id : pystr) (job : Job) : M App unit :=
  modify_frame (fun app => mkApp (<[job_id := job]> (JOBS app)) (threads app)).

(** [threading.Thread(target=run_scraper_task, args=(job_id, cmd)).start()]:
    the thread is recorded as started. Its statements run concurrently with
    whatever follows, so the state a handler returns here is the registry
    before any statement of a started thread has run; by the time the handler
    has returned in the program, such a thread may already have written to the
    entry of its job. A thread that cannot be created is not modelled. *)
Definition thread_start (job_id : pystr) (cmd : list (option pystr)) : M App unit :=
  modify_frame (fun app => mkApp (JOBS app) (threads app ++ [(job_id, cmd)])).

(** [p.stat().st_mtime >= start_time - 1]. *)
Definition in_job_window (start_time mtime : float) : bool :=
  PrimFloat.leb (PrimFloat.sub start_time 1%float) mtime.

(** The loop over [sorted(pdf_dir.glob("*.pdf"))], appending to [pdfs]. *)
Fixpoint collect_pdfs {L} (ps : list Path) (start_time : float) (pdfs : list pystr)
  : M L (list pystr) :=
  match ps with
  | [] => ret pdfs
  | p :: rest =>
      let* pdfs :=
        try_except
          (let* mtime := lift (stat_mtime p) in
           if in_job_window start_time mtime then ret (pdfs ++ [path_name p])
           else ret pdfs)
          (fun _ => ret pdfs) in
      collect_pdfs rest start_time pdfs
  end.

Definition MISSING_OUTPUT : pystr := lit "Scraper ran but did not produce an output file.".

(** The [try] block of [run_scraper_task]. *)
Definition scraper_try (job_id : pystr) (cmd : list (option pystr)) : M App unit :=
  jobs_update job_id
    (fun j => mkJob running (command j) (output_file j) (pdfs j) (error j)) ;;;
  let* start_time := lift_total time_time in
  let* result := lift (subprocess_run cmd) in
  (if (returncode result =? 0)%Z then ret tt
   else raise (Exn RuntimeError (stderr result))) ;;;
  let* files :=
    lift (glob_sorted OUTPUT_DIR (lit "web_" ++ job_id ++ lit "_*.json")) in
  match last files with
  | None => raise (Exn FileNotFoundError MISSING_OUTPUT)
  | Some newest =>
      let pdf_dir := path_div OUTPUT_DIR (lit "pdfs") in
      let* present := lift (path_exists pdf_dir) in
      let* found :=
        if present then
          let* ps := lift (glob_sorted pdf_dir (lit "*.pdf")) in
          collect_pdfs ps start_time []
        else ret [] in
      jobs_update job_id
        (fun j => mkJob completed (command j) (Some (path_name newest)) (Some found) (error j))
  end.

(** What [p.stat()] answers for each path of the listing, in order. *)
Fixpoint stat_all (ps : list Path) (w : World) : list (Path * Res float) * World :=
  match ps with
  | [] => ([], w)
  | p :: rest =>
      let (r, w1) := stat_mtime p w in
      let (l, w2) := stat_all rest w1 in
      ((p, r) :: l, w2)
  end.

(** The names [collect_pdfs] appends, read off the answers of [p.stat()]. *)
Definition window_names (start_time : float) (stats : list (Path * Res float))
  : list pystr :=
  flat_map
    (fun x =>
       match snd x with
       | Ok mtime => if in_job_window start_time mtime then [path_name (fst x)] else []
       | Raise _ => []
       end)
    stats.

(** [run_scraper_task(job_id, cmd)]. *)
Definition run_scraper_task (job_id : pystr) (cmd : list (option pystr)) : M App unit :=
  try_except (scraper_try job_id cmd)
    (fun e =>
       jobs_update job_id
         (fun j => mkJob failed (command j) (output_file j) (pdfs j) (Some (exn_str e)))).

(** The list [cmd] that [run_job] builds from the form. *)
Definition build_cmd (form : gmap pystr pystr) (job_id : pystr) : list (option pystr) :=
  [Some (lit "python"); Some (lit "main.py"); Some (lit "--causelist");
   Some (lit "--state"); form !! lit "state";
   Some (lit "--district"); form !! lit "district";
   Some (lit "--complex"); form !! lit "complex";
   Some (lit "--date"); form !! lit "date";
   Some (lit "--output"); Some (lit "web_" ++ job_id);
   Some (lit "--headless");
   Some (lit "--download-pdf")].

(** [run_job()], for the submitted [request.form]. *)
Definition run_job (form : gmap pystr pystr) : M App Reply :=
  let* job_id := lift_total uuid4_hex10 in
  let cmd := build_cmd form job_id in
  let* joined := of_res (str_join (lit " ") cmd) in
  jobs_set job_id (mkJob pending joined None None None) ;;;
  thread_start job_id cmd ;;;
  ret (RedirectToStatus job_id).


End Orchestrator.

(** ** A scripted host

    A test double for the host: a page whose answers are fixed in advance, a
    clock that does not move, and a file system given by its listings. *)
Module Fake.

(** An element is a row (its text, the texts of its cells, the [href] of its
    PDF anchor if it has one) or a leaf (a cell, an anchor, an input). *)
Inductive Elem : Type :=
  | Row (text : pystr) (cells : list pystr) (anchor_href : option pystr)
  | Leaf (text : pystr) (href : option pystr).

Definition elem_text (e : Elem) : pystr :=
  match e with Row t _ _ => t | Leaf t _ => t end.
Definition elem_href (e : Elem) : option pystr :=
  match e with Row _ _ _ => None | Leaf _ h => h end.
Definition elem_cells (e : Elem) : list Elem :=
  match e with Row _ cs _ => List.map (fun c => Leaf c None) cs | Leaf _ _ => [] end.
Definition elem_anchor (e : Elem) : option Elem :=
  match e with Row _ _ (Some h) => Some (Leaf [] (Some h)) | _ => None end.

Record script : Type := mkScript {
  goto_outcome : Res unit;
  selector_outcome : Res (option Elem);
  settle_outcome : Res unit;
  page_elements : list Elem;
  download_outcome : Res (bool * Z);
  clock : float;
  next_uuid : pystr;
  process_outcome : Res CompletedProcess;
  json_files : list pystr;
  pdf_files : list (pystr * Res float);
  written : list (list pystr)
}.

Definition no_such_file : exn := Exn FileNotFoundError (lit "No such file or directory").

Fixpoint lookup_mtime (name : pystr) (files : list (pystr * Res float)) : Res float :=
  match files with
  | [] => Raise no_such_file
  | (n, m) :: rest => if decide (n = name) then m else lookup_mtime name rest
  end.

Definition basename (p : list pystr) : pystr := List.last p [].

Definition record_write (p : list pystr) (w : script) : script :=
  mkScript (goto_outcome w) (selector_outcome w) (settle_outcome w) (page_elements w)
          (download_outcome w) (clock w) (next_uuid w) (process_outcome w)
          (json_files w) (pdf_files w) (written w ++ [p]).

Definition pure {A} (a : A) (w : script) : Res A * script := (Ok a, w).

#[export] Instance host : Host := {|
  World := script;
  Element := Elem;
  Response := bool * Z;
  Path := list pystr;
  DateTime := Z;
  unicode_isalnum := fun _ => false;
  py_repr := fun s => lit "'" ++ s ++ lit "'";
  path_of := fun s => [s];
  path_div := fun p s => p ++ [s];
  path_str := join_strs (lit "/");
  path_name := basename;
  path_parent := fun p => removelast p;
  datetime_now := fun w => (0%Z, w);
  add_days := Z.add;
  fromisoformat := fun _ => Ok 0%Z;
  strftime := fun d _ => str_of_Z d;
  isoformat := str_of_Z;
  time_time := fun w => (clock w, w);
  playwright_enter := pure tt;
  playwright_exit := pure tt;
  chromium_launch := fun _ => pure tt;
  new_context := pure tt;
  new_page := pure tt;
  context_close := pure tt;
  browser_close := pure tt;
  page_goto := fun _ _ w => (goto_outcome w, w);
  page_wait_for_selector := fun _ _ w => (selector_outcome w, w);
  page_wait_for_load_state := fun _ _ w => (settle_outcome w, w);
  page_query_selector := fun _ => pure None;
  page_query_selector_all := fun _ w => (Ok (page_elements w), w);
  locator_fill := fun _ _ => pure tt;
  locator_click := fun _ => pure tt;
  elem_fill := fun _ _ => pure tt;
  elem_click := fun _ => pure tt;
  elem_select_option := fun _ _ => pure tt;
  elem_inner_text := fun e => pure (elem_text e);
  elem_query_selector := fun e _ => pure (elem_anchor e);
  elem_query_selector_all := fun e _ => pure (elem_cells e);
  elem_get_attribute := fun e _ => pure (elem_href e);
  request_get := fun _ _ w => (download_outcome w, w);
  response_ok := fst;
  response_status := snd;
  response_body := fun _ => pure [];
  mkdir_parents := fun _ => pure tt;
  write_bytes := fun p _ w => (Ok tt, record_write p w);
  write_json := fun p _ w => (Ok tt, record_write p w);
  glob_sorted := fun dir pat w =>
    if startswith (lit "web_") pat
    then (Ok (List.map (fun n => dir ++ [n]) (json_files w)), w)
    else (Ok (List.map (fun f => dir ++ [fst f]) (pdf_files w)), w);
  path_exists := fun _ => pure true;
  stat_mtime := fun p w => (lookup_mtime (basename p) (pdf_files w), w);
  print_stdout := fun _ => pure tt;
  subprocess_run := fun _ w => (process_outcome w, w);
  uuid4_hex10 := fun w => (next_uuid w, w)
|}.

Definition timeout : exn := Exn PlaywrightTimeoutError (lit "Timeout 30000ms exceeded.").

Definition input_box : Elem := Leaf [] None.

(** A page that loads and shows no result row. *)
Definition blank : script :=
  mkScript (Ok tt) (Ok (Some input_box)) (Ok tt) [] (Raise timeout) 1730000000.5%float
          (lit "0123456789") (Ok (mkCompleted 0 [] [])) [] [] [].

Definition with_goto (r : Res unit) (w : script) : script :=
  mkScript r (selector_outcome w) (settle_outcome w) (page_elements w)
          (download_outcome w) (clock w) (next_uuid w) (process_outcome w)
          (json_files w) (pdf_files w) (written w).

Definition with_settle (r : Res unit) (w : script) : script :=
  mkScript (goto_outcome w) (selector_outcome w) r (page_elements w)
          (download_outcome w) (clock w) (next_uuid w) (process_outcome w)
          (json_files w) (pdf_files w) (written w).

Definition with_elements (els : list Elem) (w : script) : script :=
  mkScript (goto_outcome w) (selector_outcome w) (settle_outcome w) els
          (download_outcome w) (clock w) (next_uuid w) (process_outcome w)
          (json_files w) (pdf_files w) (written w).

Definition with_files (js : list pystr) (ps : list (pystr * Res float)) (w : script) : script :=
  mkScript (goto_outcome w) (selector_outcome w) (settle_outcome w) (page_elements w)
          (download_outcome w) (clock w) (next_uuid w) (process_outcome w)
          js ps (written w).

Definition with_clock (t : float) (w : script) : script :=
  mkScript (goto_outcome w) (selector_outcome w) (settle_outcome w) (page_elements w)
          (download_outcome w) t (next_uuid w) (process_outcome w)
          (json_files w) (pdf_files w) (written w).

Definition with_selector (r : Res (option Elem)) (w : script) : script :=
  mkScript (goto_outcome w) r (settle_outcome w) (page_elements w)
          (download_outcome w) (clock w) (next_uuid w) (process_outcome w)
          (json_files w) (pdf_files w) (written w).

Definition with_process (r : Res CompletedProcess) (w : script) : script :=
  mkScript (goto_outcome w) (selector_outcome w) (settle_outcome w) (page_elements w)
          (download_outcome w) (clock w) (next_uuid w) r
          (json_files w) (pdf_files w) (written w).

(** A result row for CNR [ABC123] with two cells and no PDF anchor. *)
Definition abc_row : Elem := Row (lit "ABC123 foo") [lit "1"; lit "Court 5"] None.

Definition start {L} (w : script) (l : L) : St L := mkSt w [] l.

(** The portal cannot be reached. *)
Definition unreachable : script := with_goto (Raise timeout) blank.

(** The portal loads but no selector ever appears. *)
Definition no_selector : script := with_selector (Raise timeout) blank.

(** One matching result row is on the page. *)
Definition one_row : script := with_elements [abc_row] blank.

(** The same page, which never becomes idle. *)
Definition one_row_busy : script := with_settle (Raise timeout) one_row.

(** A form whose state field is present and empty. *)
Definition empty_state_form : gmap pystr pystr :=
  <[lit "state" := []]>
    (<[lit "district" := lit "New Delhi"]>
       (<[lit "complex" := lit "Tis Hazari"]>
          (<[lit "date" := lit "2025-10-18"]> ∅))).

(** A form without a district field. *)
Definition no_district_form : gmap pystr pystr :=
  <[lit "state" := lit "Delhi"]>
    (<[lit "complex" := lit "Tis Hazari"]>
       (<[lit "date" := lit "2025-10-18"]> ∅)).

Definition job_id : pystr := lit "0123456789".

Definition job_cmd : list (option pystr) :=
  [Some (lit "python"); Some (lit "main.py"); Some (lit "--causelist");
   Some (lit "--state"); Some (lit "Delhi");
   Some (lit "--district"); Some (lit "New Delhi");
   Some (lit "--complex"); Some (lit "Tis Hazari");
   Some (lit "--date"); Some (lit "2025-10-18");
   Some (lit "--output"); Some (lit "web_0123456789");
   Some (lit "--headless"); Some (lit "--download-pdf")].

Definition pending_job : Job := mkJob pending (lit "python main.py") None None None.

(** The registry after [run_job] stored one job. *)
Definition one_job : App := mkApp {[ job_id := pending_job ]} [].

(** The engine exited with status 0 and wrote its result document; the PDF
    area holds one file from before the job, one from its run, and one that
    is gone by the time it is examined. *)
Definition after_run : script :=
  with_files [lit "web_0123456789_20251018_101500.json"]
    [(lit "a_old.pdf", Ok 1729999990.0%float);
     (lit "b_new.pdf", Ok 1730000003.25%float);
     (lit "c_gone.pdf", Raise no_such_file)]
    blank.

Definition result_listing : list (list pystr) :=
  [[lit "outputs"; lit "web_0123456789_20251018_101500.json"]].

Definition pdf_listing : list (list pystr) :=
  [[lit "outputs"; lit "pdfs"; lit "a_old.pdf"];
   [lit "outputs"; lit "pdfs"; lit "b_new.pdf"];
   [lit "outputs"; lit "pdfs"; lit "c_gone.pdf"]].

(** The same file system, seen by a job that starts half a second later. *)
Definition after_run_later : script := with_clock 1730000001.0%float after_run.

Definition cnr : pystr := lit "ABC123".
Definition day : pystr := lit "2025-10-18".
Definition delhi : pystr := lit "Delhi".
Definition new_delhi : pystr := lit "New Delhi".
Definition tis_hazari : pystr := lit "Tis Hazari".

(** The registry before any submission. *)
Definition no_jobs : App := mkApp ∅ [].

(** The state [run_job] leaves after the form with the empty state field. *)
Definition submitted : St App :=
  mkSt blank []
    (mkApp
       {[ job_id :=
            mkJob pending
              (lit "python main.py --causelist --state  --district New Delhi --complex Tis Hazari --date 2025-10-18 --output web_0123456789 --headless --download-pdf")
              None None None ]}
       [(job_id, build_cmd empty_state_form job_id)]).

End Fake.

(** ** Further definitions for the properties below *)

(** More scripts for the scripted host. *)
Module Scene.

Definition with_download (r : Res (bool * Z)) (w : Fake.script) : Fake.script :=
  Fake.mkScript (Fake.goto_outcome w) (Fake.selector_outcome w) (Fake.settle_outcome w)
    (Fake.page_elements w) r (Fake.clock w) (Fake.next_uuid w) (Fake.process_outcome w)
    (Fake.json_files w) (Fake.pdf_files w) (Fake.written w).

(** A page whose downloads answer 200. *)
Definition downloads_ok : Fake.script := with_download (Ok (true, 200%Z)) Fake.blank.

(** A cause-list page with two judge links, the second without a label. *)
Definition two_judges : Fake.script :=
  Fake.with_elements
    [Fake.Leaf (lit "Hon'ble J. Smith/Court-2") (Some (lit "/cl/smith.pdf"));
     Fake.Leaf (lit "  ") (Some (lit "/cl/other.pdf"))]
    Fake.blank.

(** The same page, with downloads that answer 200. *)
Definition two_judges_saved : Fake.script := with_download (Ok (true, 200%Z)) two_judges.

Definition pdf_path : list pystr := [lit "outputs"; lit "pdfs"; lit "x.pdf"].

(** A form with state, district and complex but without a date field. *)
Definition no_date_form : gmap pystr pystr :=
  <[lit "state" := lit "Delhi"]>
    (<[lit "district" := lit "New Delhi"]>
       (<[lit "complex" := lit "Tis Hazari"]> ∅)).

(** The namespace of a command line without arguments. *)
Definition no_args : Args :=
  mkArgs false false None None None None None None None None false false true None.


(** [--causelist --state Delhi --district "" --complex "Tis Hazari"
    --output web_0123456789 --headless --download-pdf]. *)
Definition empty_district_args : Args :=
  mkArgs false false (Some Fake.day) None None None None (Some Fake.delhi) (Some [])
         (Some Fake.tis_hazari) true true true (Some (lit "web_0123456789")).

(** The same command line with the district filled in. *)
Definition complete_args : Args :=
  mkArgs false false (Some Fake.day) None None None None (Some Fake.delhi)
         (Some Fake.new_delhi) (Some Fake.tis_hazari) true true true
         (Some (lit "web_0123456789")).

(** The engine exited with status 2. *)
Definition engine_crashed : Fake.script :=
  Fake.with_process (Ok (mkCompleted 2 [] (lit "usage: main.py"))) Fake.blank.

End Scene.

Section MonadPost.
Context {H : Host}.

(** [m] keeps the property [P] of the frame and, when it returns, returns a
    value in [R]. *)
Definition frame_post {L A} (P : L -> Prop) (m : M L A) (R : A -> Prop) : Prop :=
  forall st, P (frame st) ->
    P (frame (snd (m st))) /\ (forall a, fst (m st) = Ok a -> R a).

(** What [m] does to the frame: [R] relates the frames around a run that
    returns, [E] those around a run that raises. *)
Definition frame_rel {L A} (R E : L -> L -> Prop) (m : M L A) : Prop :=
  forall st,
    match m st with
    | (Ok _, st') => R (frame st) (frame st')
    | (Raise _, st') => E (frame st) (frame st')
    end.

(** What holds of every row [find_case_by_cnr] appends: its text is not
    empty, contains the CNR and is stripped, and it carries a saved path only
    when downloads were asked for and it has a link. *)
Definition row_ok (cnr : pystr) (should_download : bool) (r : CaseRow) : Prop :=
  truthy (row_text r) = true
  /\ contains cnr (row_text r) = true
  /\ (downloaded_pdf r <> None ->
      should_download = true /\ truthy_opt (pdf_link r) = true)
  /\ strip (row_text r) = row_text r.

(** What holds of every entry [download_causelist_for_complex] appends. *)
Definition judge_ok (download_pdfs : bool) (e : JudgeEntry) : Prop :=
  truthy (judge_text e) = true
  /\ (judge_downloaded_pdf e <> None ->
      download_pdfs = true /\ truthy_opt (judge_pdf_link e) = true).

(** One more judge entry at the end. *)
Definition one_more (l l' : CauseList) : Prop :=
  exists e, cl_judges l' = cl_judges l ++ [e].

(** Every entry but the one of [job_id], and the thread list. *)
Definition rest_of_registry (job_id : pystr) (app app' : App) : Prop :=
  (forall other, other <> job_id -> JOBS app' !! other = JOBS app !! other)
  /\ threads app' = threads app.

(** The job of [job_id] after [scraper_try]: completed with an output file
    and a PDF list when it returned, otherwise as it was but for its status. *)
Definition job_done (job_id : pystr) (app app' : App) : Prop :=
  forall j, JOBS app !! job_id = Some j ->
    exists j', JOBS app' !! job_id = Some j'
      /\ status j' = completed /\ command j' = command j
      /\ is_Some (output_file j') /\ is_Some (pdfs j') /\ error j' = error j.

Definition job_kept (job_id : pystr) (app app' : App) : Prop :=
  forall j, JOBS app !! job_id = Some j ->
    exists j', JOBS app' !! job_id = Some j'
      /\ command j' = command j /\ output_file j' = output_file j
      /\ pdfs j' = pdfs j /\ error j' = error j.

(** [str.endswith]. *)
Definition endswith (suffix s : pystr) : bool := startswith (rev suffix) (rev s).

End MonadPost.

(** ** Facts about the state-and-exception operations *)
Section MonadFacts.
Context {H : Host}.

Lemma bind_ok {L A B} (m : M L A) (k : A -> M L B) st a st' :
  m st = (Ok a, st') -> bind m k st = k a st'.
Proof. intros E. unfold bind. now rewrite E. Qed.

Lemma bind_raise {L A B} (m : M L A) (k : A -> M L B) st e st' :
  m st = (Raise e, st') -> bind m k st = (Raise e, st').
Proof. intros E. unfold bind. now rewrite E. Qed.

Lemma lift_eq {L A} (op : World -> Res A * World) (st : St L) r w :
  op (world st) = (r, w) -> lift op st = (r, mkSt w (logs st) (frame st)).
Proof. intros E. unfold lift. now rewrite E. Qed.

Lemma lift_total_eq {L A} (op : World -> A * World) (st : St L) a w :
  op (world st) = (a, w) -> lift_total op st = (Ok a, mkSt w (logs st) (frame st)).
Proof. intros E. unfold lift_total. now rewrite E. Qed.

Lemma inv_ret {L A} (P : L -> Prop) (a : A) : frame_inv P (ret a).
Proof. intros st HP. exact HP. Qed.

Lemma inv_raise {L A} (P : L -> Prop) e : frame_inv P (@raise H L A e).
Proof. intros st HP. exact HP. Qed.

Lemma inv_of_res {L A} (P : L -> Prop) (r : Res A) : frame_inv P (of_res r).
Proof. intros st HP. exact HP. Qed.

Lemma inv_bind {L A B} (P : L -> Prop) (m : M L A) (k : A -> M L B) :
  frame_inv P m -> (forall a, frame_inv P (k a)) -> frame_inv P (bind m k).
Proof.
  intros Hm Hk st HP. unfold bind.
  specialize (Hm st HP). destruct (m st) as [[a | e] st']; simpl in *.
  - apply Hk, Hm.
  - exact Hm.
Qed.

Lemma inv_try_except {L A} (P : L -> Prop) (body : M L A) (handler : exn -> M L A) :
  frame_inv P body -> (forall e, frame_inv P (handler e)) ->
  frame_inv P (try_except body handler).
Proof.
  intros Hb Hh st HP. unfold try_except.
  specialize (Hb st HP). destruct (body st) as [[a | e] st']; simpl in *.
  - exact Hb.
  - apply Hh, Hb.
Qed.

Lemma inv_lift {L A} (P : L -> Prop) (op : World -> Res A * World) :
  frame_inv P (@lift H L A op).
Proof. intros st HP. unfold lift. now destruct (op (world st)). Qed.

Lemma inv_lift_total {L A} (P : L -> Prop) (op : World -> A * World) :
  frame_inv P (@lift_total H L A op).
Proof. intros st HP. unfold lift_total. now destruct (op (world st)). Qed.

Lemma inv_logging_info {L} (P : L -> Prop) msg : frame_inv P (@logging_info H L msg).
Proof. intros st HP. exact HP. Qed.

Lemma inv_logging_error {L} (P : L -> Prop) msg b :
  frame_inv P (@logging_error H L msg b).
Proof. intros st HP. exact HP. Qed.

Lemma inv_modify_frame {L} (P : L -> Prop) (f : L -> L) :
  (forall l, P l -> P (f l)) -> frame_inv P (modify_frame f).
Proof. intros Hf st HP. simpl. now apply Hf. Qed.

Lemma inv_with_local {L L' A} (P : L -> Prop) (init : L') (body : M L' A) :
  frame_inv P (with_local init body).
Proof.
  intros st HP. unfold with_local.
  now destruct (body (mkSt (world st) (logs st) init)).
Qed.

Lemma inv_on_element {L A} (P : L -> Prop) el attr (method : Element -> M L A) :
  (forall e, frame_inv P (method e)) -> frame_inv P (on_element el attr method).
Proof. intros Hm. destruct el; simpl; [apply Hm | apply inv_raise]. Qed.

Lemma inv_for_each {L A} (P : L -> Prop) (xs : list A) (body : A -> M L unit) :
  (forall x, frame_inv P (body x)) -> frame_inv P (for_each xs body).
Proof.
  intros Hb. induction xs as [| x rest IH]; simpl.
  - apply inv_ret.
  - apply inv_bind; [apply Hb | intros _; exact IH].
Qed.

Lemma inv_for_each_from {L A} (P : L -> Prop) (xs : list A) (body : nat -> A -> M L unit) :
  (forall i x, frame_inv P (body i x)) -> forall idx, frame_inv P (for_each_from idx xs body).
Proof.
  intros Hb. induction xs as [| x rest IH]; intros idx; simpl.
  - apply inv_ret.
  - apply inv_bind; [apply Hb | intros _; apply IH].
Qed.

End MonadFacts.

(** Steps through a program built from the operations above, splitting on
    the tests and matches it meets. *)
Ltac frame_step :=
  first
    [ apply inv_ret | apply inv_raise | apply inv_of_res | apply inv_lift
    | apply inv_lift_total | apply inv_logging_info | apply inv_logging_error
    | apply inv_with_local
    | apply inv_bind; [| intros ?]
    | apply inv_try_except; [| intros ?]
    | apply inv_on_element; intros ?
    | apply inv_for_each; intros ?
    | match goal with
      | |- frame_inv _ (if ?b then _ else _) => destruct b
      | |- frame_inv _ (match ?x with _ => _ end) => destruct x
      end ].

Ltac frame_auto := repeat frame_step.

(** ** The extraction engine *)
Section EngineFacts.
Context {H : Host}.

Lemma inv_download_attachment {L} (P : L -> Prop) url filename :
  frame_inv P (@download_attachment H L url filename).
Proof. unfold download_attachment. frame_auto. Qed.

Lemma inv_cell_text {L} (P : L -> Prop) cells i :
  frame_inv P (@cell_text H L cells i).
Proof. unfold cell_text. frame_auto. Qed.

Lemma inv_cnr_submit (P : list CaseRow -> Prop) cnr : frame_inv P (cnr_submit cnr).
Proof. unfold cnr_submit. frame_auto. Qed.

Lemma inv_causelist_form (P : CauseList -> Prop) s d c dt :
  frame_inv P (causelist_form s d c dt).
Proof. unfold causelist_form. frame_auto. Qed.

Lemma inv_judge_link s d c dt complex_name date_str dl idx link :
  frame_inv (same_request s d c dt) (judge_link complex_name date_str dl idx link).
Proof.
  unfold judge_link. frame_auto;
    try apply inv_download_attachment;
    apply inv_modify_frame; intros out HP; exact HP.
Qed.

Lemma inv_causelist_scrape s d c dt complex_name date_str dl :
  frame_inv (same_request s d c dt) (causelist_scrape complex_name date_str dl).
Proof.
  unfold causelist_scrape. frame_auto.
  apply inv_for_each_from. intros i x. apply inv_judge_link.
Qed.

Lemma same_request_eq s d c dt out :
  same_request s d c dt out -> out = mkCauseList s d c dt (cl_judges out).
Proof.
  unfold same_request. destruct out; simpl.
  intros (-> & -> & -> & ->). reflexivity.
Qed.

Lemma causelist_except_logs {L} e (st : St L) :
  exists r, log_lvl r = ERROR /\
    causelist_except e st = (Ok tt, mkSt (world st) (logs st ++ [r]) (frame st)).
Proof.
  unfold causelist_except. destruct (is_playwright_timeout e); eexists; split;
    try reflexivity; reflexivity.
Qed.

Lemma cnr_except_logs {L} e (st : St L) :
  exists r, log_lvl r = ERROR /\
    cnr_except e st = (Ok tt, mkSt (world st) (logs st ++ [r]) (frame st)).
Proof.
  unfold cnr_except. destruct (is_playwright_timeout e); eexists; split;
    try reflexivity; reflexivity.
Qed.

End EngineFacts.

(** ** The claims about the engine *)

(** C9: for a fixed CNR, download flag and state of the page and the process,
    the lookup returns the same outcome and leaves the same state whatever
    the date argument is. *)
Theorem cnr_lookup_ignores_date {H : Host} {L} (cnr d1 d2 : pystr) (dl : bool)
    (st : St L) :
  find_case_by_cnr cnr d1 dl st = find_case_by_cnr cnr d2 dl st.
Proof.
  unfold find_case_by_cnr, with_local.
  destruct (bind (try_except (cnr_try cnr dl) cnr_except) (fun _ => get_frame)
              (mkSt (world st) (logs st) [])) as [r st'].
  reflexivity.
Qed.

(** C8: on every input and every host, also one on which every step raises,
    [download_causelist_for_complex] raises nothing and returns a record with
    the submitted state, district, complex and date and some list of judges;
    the caller's frame is untouched. *)
Theorem causelist_always_returns_record {H : Host} {L}
    (s d c dt : pystr) (dl : bool) (st : St L) :
  exists judges st',
    download_causelist_for_complex s d c dt dl st
      = (Ok (mkCauseList s d c dt judges), st')
    /\ frame st' = frame st.
Proof.
  unfold download_causelist_for_complex, with_local.
  set (st0 := mkSt (world st) (logs st) (mkCauseList s d c dt [])).
  set (body := try_except _ _).
  assert (Hinv : frame_inv (same_request s d c dt) body).
  { subst body. apply inv_try_except.
    - apply inv_bind; [apply inv_causelist_form | intros _; apply inv_causelist_scrape].
    - intros e. unfold causelist_except. frame_auto. }
  assert (Hok : exists st1, body st0 = (Ok tt, st1)).
  { subst body. unfold try_except.
    destruct (bind _ _ st0) as [[[] | e] st1]; [eauto |].
    destruct (causelist_except_logs e st1) as (r & _ & ->). eauto. }
  destruct Hok as [st1 E]. specialize (Hinv st0). rewrite E in Hinv. simpl in Hinv.
  unfold bind. rewrite E. simpl.
  exists (cl_judges (frame st1)), (mkSt (world st1) (logs st1) (frame st)).
  split; [| reflexivity].
  rewrite <- same_request_eq; [reflexivity |].
  apply Hinv. repeat split.
Qed.

(** C3, as the code has it: when a step of the form (navigation, a
    selection, the date fill, the submit click or a wait between them) raises,
    the flow raises nothing: it logs one error and returns the record of the
    request with an empty list of judges. *)
Theorem causelist_failed_step_returns_empty_record {H : Host} {L}
    (s d c dt : pystr) (dl : bool) (st : St L) (e : exn) (st1 : St CauseList) :
  causelist_form s d c dt (mkSt (world st) (logs st) (mkCauseList s d c dt []))
    = (Raise e, st1) ->
  exists r,
    log_lvl r = ERROR /\
    download_causelist_for_complex s d c dt dl st
      = (Ok (mkCauseList s d c dt []),
         mkSt (world st1) (logs st1 ++ [r]) (frame st)).
Proof.
  intros E.
  assert (Hf : frame st1 = mkCauseList s d c dt []).
  { pose proof (inv_causelist_form (fun l => l = mkCauseList s d c dt []) s d c dt
                  (mkSt (world st) (logs st) (mkCauseList s d c dt [])) eq_refl) as Hs.
    rewrite E in Hs. exact Hs. }
  destruct (causelist_except_logs e st1) as (r & Hr & Er).
  exists r. split; [exact Hr |].
  unfold download_causelist_for_complex, with_local, bind at 1, try_except.
  rewrite (bind_raise _ _ _ _ _ E), Er. simpl. rewrite Hf. reflexivity.
Qed.

Lemma causelist_failed_step_witness :
  exists r,
    log_lvl r = ERROR /\
    download_causelist_for_complex (H := Fake.host) Fake.delhi Fake.new_delhi Fake.tis_hazari Fake.day true
        (Fake.start Fake.no_selector tt)
      = (Ok (mkCauseList Fake.delhi Fake.new_delhi Fake.tis_hazari Fake.day []),
         mkSt (H := Fake.host) Fake.no_selector
           ([Log INFO (lit "Fetching cause list for Tis Hazari, New Delhi, Delhi on 2025-10-18")
               false] ++ [r])
           tt).
Proof.
  apply (causelist_failed_step_returns_empty_record (H := Fake.host)
           Fake.delhi Fake.new_delhi Fake.tis_hazari Fake.day true
           (Fake.start Fake.no_selector tt) Fake.timeout
           (mkSt (H := Fake.host) Fake.no_selector
              [Log INFO (lit "Fetching cause list for Tis Hazari, New Delhi, Delhi on 2025-10-18")
                 false]
              (mkCauseList Fake.delhi Fake.new_delhi Fake.tis_hazari Fake.day []))).
  vm_compute. reflexivity.
Defined.

(** C3, as stated, fails: the state selector never appears, and the flow
    still returns a result record to its caller instead of failing. *)
Lemma causelist_failure_returns_record :
  page_wait_for_selector (Host := Fake.host) STATE_SELECT None Fake.no_selector
    = (Raise Fake.timeout, Fake.no_selector)
  /\ fst (download_causelist_for_complex (H := Fake.host) Fake.delhi Fake.new_delhi Fake.tis_hazari
            Fake.day true (Fake.start Fake.no_selector tt))
     = Ok (mkCauseList Fake.delhi Fake.new_delhi Fake.tis_hazari Fake.day []).
Proof. split; vm_compute; reflexivity. Qed.

(** C2, as the code has it: when the navigation raises, or the wait for the
    CNR input raises after it, the lookup raises nothing: it logs one error
    and returns the empty list, the value it also returns when the page shows
    no matching row. The logged error alone tells the two apart. *)
Theorem cnr_navigation_failure_returns_empty {H : Host} {L}
    (cnr d : pystr) (dl : bool) (st : St L) (e : exn) (w1 : World) :
  (page_goto ECOURTS_CAUSELIST_URL 60000 (world st) = (Raise e, w1)
   \/ exists w0,
        page_goto ECOURTS_CAUSELIST_URL 60000 (world st) = (Ok tt, w0)
        /\ page_wait_for_selector CNR_INPUT (Some 15000%Z) w0 = (Raise e, w1)) ->
  exists r,
    log_lvl r = ERROR /\
    find_case_by_cnr cnr d dl st
      = (Ok [],
         mkSt w1
           (logs st
              ++ [Log INFO (lit "Navigating to eCourts cause list page for CNR: " ++ cnr) false]
              ++ [r])
           (frame st)).
Proof.
  intros Hfail.
  set (st0 := mkSt (world st) (logs st) (@nil CaseRow)).
  set (nav := Log INFO (lit "Navigating to eCourts cause list page for CNR: " ++ cnr) false).
  assert (E : cnr_try cnr dl st0 = (Raise e, mkSt w1 (logs st ++ [nav]) [])).
  { unfold cnr_try. apply bind_raise. unfold cnr_submit.
    erewrite bind_ok by reflexivity.
    destruct Hfail as [Eg | (w0 & Eg & Es)].
    - apply bind_raise. apply lift_eq. exact Eg.
    - erewrite bind_ok by (apply lift_eq; exact Eg).
      apply bind_raise. apply lift_eq. exact Es. }
  destruct (cnr_except_logs e (mkSt w1 (logs st ++ [nav]) (@nil CaseRow)))
    as (r & Hr & Er).
  exists r. split; [exact Hr |].
  unfold find_case_by_cnr, with_local, bind, try_except. fold st0.
  rewrite E, Er. simpl. rewrite <- app_assoc. reflexivity.
Qed.

Lemma cnr_navigation_failure_witness :
  exists r,
    log_lvl r = ERROR /\
    find_case_by_cnr (H := Fake.host) Fake.cnr Fake.day false
        (Fake.start Fake.unreachable tt)
      = (Ok [],
         mkSt (H := Fake.host) Fake.unreachable
           ([] ++ [Log INFO (lit "Navigating to eCourts cause list page for CNR: " ++ Fake.cnr)
                     false]
               ++ [r])
           tt).
Proof.
  apply (cnr_navigation_failure_returns_empty (H := Fake.host) Fake.cnr Fake.day false
           (Fake.start Fake.unreachable tt) Fake.timeout Fake.unreachable).
  left. reflexivity.
Defined.

(** C2, as stated, fails: the portal cannot be reached, and the lookup returns
    the very value it returns on a page that loads and shows no row. *)
Lemma cnr_failure_same_as_empty_result :
  page_goto (Host := Fake.host) ECOURTS_CAUSELIST_URL 60000 Fake.unreachable
    = (Raise Fake.timeout, Fake.unreachable)
  /\ fst (find_case_by_cnr (H := Fake.host) Fake.cnr Fake.day false
            (Fake.start Fake.unreachable tt)) = Ok []
  /\ fst (find_case_by_cnr (H := Fake.host) Fake.cnr Fake.day false
            (Fake.start Fake.blank tt)) = Ok [].
Proof. repeat split; vm_compute; reflexivity. Qed.

(** C6, as the code has it: when the lookup has reached the wait for network
    quiescence and that wait times out, the rows are not read: the lookup logs
    the timeout and returns the empty list, and the page is not queried
    again. *)
Theorem cnr_settle_timeout_skips_rows {H : Host} {L}
    (cnr d : pystr) (dl : bool) (st : St L) (st1 : St (list CaseRow))
    (e : exn) (w2 : World) :
  cnr_submit cnr (mkSt (world st) (logs st) []) = (Ok tt, st1) ->
  page_wait_for_load_state (lit "networkidle") 30000 (world st1) = (Raise e, w2) ->
  is_playwright_timeout e = true ->
  find_case_by_cnr cnr d dl st
    = (Ok [],
       mkSt w2
         (logs st1
            ++ [Log ERROR
                  (lit "Timeout waiting for page elements. The website might be slow or selectors need updating.")
                  false])
         (frame st)).
Proof.
  intros Esub Eset Ht.
  assert (Hf : frame st1 = []).
  { pose proof (inv_cnr_submit (fun l => l = []) cnr
                  (mkSt (world st) (logs st) []) eq_refl) as Hs.
    rewrite Esub in Hs. exact Hs. }
  assert (E : cnr_try cnr dl (mkSt (world st) (logs st) [])
              = (Raise e, mkSt w2 (logs st1) (frame st1))).
  { unfold cnr_try. rewrite (bind_ok _ _ _ _ _ Esub).
    apply bind_raise. unfold cnr_settle. apply lift_eq. exact Eset. }
  unfold find_case_by_cnr, with_local, bind, try_except.
  rewrite E. unfold cnr_except. rewrite Ht. simpl. rewrite Hf. reflexivity.
Qed.

Lemma cnr_settle_timeout_witness :
  find_case_by_cnr (H := Fake.host) Fake.cnr Fake.day false
      (Fake.start Fake.one_row_busy tt)
    = (Ok [],
       mkSt (H := Fake.host) Fake.one_row_busy
         ([Log INFO (lit "Navigating to eCourts cause list page for CNR: " ++ Fake.cnr) false]
            ++ [Log ERROR
                  (lit "Timeout waiting for page elements. The website might be slow or selectors need updating.")
                  false])
         tt).
Proof.
  apply (cnr_settle_timeout_skips_rows (H := Fake.host) Fake.cnr Fake.day false
           (Fake.start Fake.one_row_busy tt)
           (mkSt (H := Fake.host) Fake.one_row_busy
              [Log INFO (lit "Navigating to eCourts cause list page for CNR: " ++ Fake.cnr) false]
              [])
           Fake.timeout Fake.one_row_busy).
  - vm_compute. reflexivity.
  - reflexivity.
  - reflexivity.
Defined.

(** C6, as stated, fails: a matching row is on the page, the wait for
    quiescence times out, and the lookup returns no row; on the same page
    without the timeout it returns the row. *)
Lemma cnr_settle_timeout_loses_rows :
  page_wait_for_load_state (Host := Fake.host) (lit "networkidle") 30000 Fake.one_row_busy
    = (Raise Fake.timeout, Fake.one_row_busy)
  /\ page_query_selector_all (Host := Fake.host) RESULTS_ROW Fake.one_row_busy
     = (Ok [Fake.abc_row], Fake.one_row_busy)
  /\ fst (find_case_by_cnr (H := Fake.host) Fake.cnr Fake.day false
            (Fake.start Fake.one_row_busy tt)) = Ok []
  /\ fst (find_case_by_cnr (H := Fake.host) Fake.cnr Fake.day false
            (Fake.start Fake.one_row tt))
     = Ok [mkCaseRow (lit "ABC123 foo") (lit "1") (lit "Court 5") None None].
Proof. repeat split; vm_compute; reflexivity. Qed.

(** ** Judge-label sanitization *)

Lemma rstrip_split (s : pystr) :
  exists trailing,
    s = rstrip s ++ trailing /\ Forall (fun c => isspace c = true) trailing.
Proof.
  induction s as [| c t (tr & Et & Htr)]; simpl.
  - exists []. split; [reflexivity | constructor].
  - destruct (rstrip t) as [| x t'] eqn:Er.
    + simpl in Et. subst tr. destruct (isspace c) eqn:Ec.
      * exists (c :: t). split; [reflexivity | now constructor].
      * exists t. split; [reflexivity | exact Htr].
    + exists tr. split; [| exact Htr]. simpl. now rewrite Et at 1.
Qed.

Lemma rstrip_last (s : pystr) (c : N) :
  last (rstrip s) = Some c -> isspace c = false.
Proof.
  induction s as [| a t IH]; simpl; [discriminate |].
  destruct (rstrip t) as [| x t'] eqn:Er.
  - destruct (isspace a) eqn:Ea; simpl; [discriminate |].
    intros [= <-]. exact Ea.
  - intros Hl. apply IH. exact Hl.
Qed.

(** C5, as the code has it: sanitization keeps the characters of the label
    that are alphanumeric, a space or a period, in their order, drops every
    other character (it puts nothing in its place), and then removes trailing
    whitespace; sanitizing "Hon'ble J. Smith/Court-2" gives
    "Honble J. SmithCourt2". *)
Theorem sanitize_allow_list {H : Host} (label : pystr) :
  (forall c, keep_char c = true <-> (isalnum c = true \/ c = 32 \/ c = 46))
  /\ (exists trailing,
        List.filter keep_char label = sanitize label ++ trailing
        /\ Forall (fun c => isspace c = true) trailing)
  /\ (forall c, last (sanitize label) = Some c -> isspace c = false)
  /\ sanitize (lit "Hon'ble J. Smith/Court-2") = lit "Honble J. SmithCourt2".
Proof.
  split; [| split; [| split]].
  - intros c. unfold keep_char. rewrite !orb_true_iff, !N.eqb_eq. tauto.
  - apply rstrip_split.
  - apply rstrip_last.
  - vm_compute. reflexivity.
Qed.

(** C5, as stated, fails on its own example: the slash is dropped, not turned
    into a space. *)
Lemma sanitize_example_has_no_space :
  sanitize (H := Fake.host) (lit "Hon'ble J. Smith/Court-2")
    <> lit "Honble J. Smith Court2".
Proof. vm_compute. intros E. discriminate E. Qed.

(** ** The job orchestrator *)
Section OrchestratorFacts.
Context {H : Host}.

Lemma jobs_update_ok (job_id : pystr) (f : Job -> Job) (st : St App) (j : Job) :
  JOBS (frame st) !! job_id = Some j ->
  jobs_update job_id f st
    = (Ok tt, mkSt (world st) (logs st)
                (mkApp (<[job_id := f j]> (JOBS (frame st))) (threads (frame st)))).
Proof. intros E. unfold jobs_update. now rewrite E. Qed.

Lemma collect_pdfs_spec {L} (ps : list Path) (start_time : float) (acc : list pystr)
    (st : St L) :
  collect_pdfs ps start_time acc st
    = (Ok (acc ++ window_names start_time (fst (stat_all ps (world st)))),
       mkSt (snd (stat_all ps (world st))) (logs st) (frame st)).
Proof.
  revert acc st. induction ps as [| p rest IH]; intros acc st; simpl.
  - unfold ret. rewrite app_nil_r. now destruct st.
  - unfold bind, try_except, lift.
    destruct (stat_mtime p (world st)) as [[m | e] w1]; simpl;
      [destruct (in_job_window start_time m) eqn:Ew; simpl |];
      rewrite IH; simpl; destruct (stat_all rest w1) as [l w2]; simpl;
      unfold window_names; simpl; rewrite ?Ew; simpl;
      rewrite <- ?app_assoc; reflexivity.
Qed.

Lemma window_names_spec (start_time : float) (stats : list (Path * Res float))
    (name : pystr) :
  In name (window_names start_time stats) <->
  exists p mtime,
    In (p, Ok mtime) stats /\ path_name p = name
    /\ PrimFloat.leb (PrimFloat.sub start_time 1%float) mtime = true.
Proof.
  unfold window_names. rewrite in_flat_map. split.
  - intros ([p [m | e]] & Hin & Hn); simpl in Hn; [| contradiction].
    destruct (in_job_window start_time m) eqn:Ew; [| contradiction].
    destruct Hn as [<- | []]. exists p, m. auto.
  - intros (p & m & Hin & <- & Hw). exists (p, Ok m). split; [exact Hin |].
    simpl. unfold in_job_window. rewrite Hw. now left.
Qed.

End OrchestratorFacts.



(** C7: a job is in the registry, its engine run exits with status 0 and
    leaves a result document, and the PDF area exists and lists [ps]. Then
    the job completes, and a name is in its PDF list exactly when it is the
    name of a listed PDF whose modification time could be read and is at least
    the job's start time minus 1 (in floating point, as the code compares).
    No other job enters the test, so a PDF that passes it for two jobs is
    listed by both. *)
Theorem pdf_window_correlation {H : Host}
    (job_id : pystr) (cmd : list (option pystr)) (st : St App) (j : Job)
    (t : float) (w1 : World) (cp : CompletedProcess) (w2 : World)
    (files : list Path) (newest : Path) (w3 w4 : World) (ps : list Path) (w5 : World) :
  JOBS (frame st) !! job_id = Some j ->
  time_time (world st) = (t, w1) ->
  subprocess_run cmd w1 = (Ok cp, w2) ->
  returncode cp = 0%Z ->
  glob_sorted OUTPUT_DIR (lit "web_" ++ job_id ++ lit "_*.json") w2 = (Ok files, w3) ->
  last files = Some newest ->
  path_exists (path_div OUTPUT_DIR (lit "pdfs")) w3 = (Ok true, w4) ->
  glob_sorted (path_div OUTPUT_DIR (lit "pdfs")) (lit "*.pdf") w4 = (Ok ps, w5) ->
  exists st' j' found,
    run_scraper_task job_id cmd st = (Ok tt, st')
    /\ JOBS (frame st') !! job_id = Some j'
    /\ status j' = completed
    /\ output_file j' = Some (path_name newest)
    /\ pdfs j' = Some found
    /\ (forall name,
          In name found <->
          exists p mtime,
            In (p, Ok mtime) (fst (stat_all ps w5)) /\ path_name p = name
            /\ PrimFloat.leb (PrimFloat.sub t 1%float) mtime = true).
Proof.
  intros Hj Et Er Hrc Eg Hlast Ee Ep.
  set (j1 := mkJob running (command j) (output_file j) (pdfs j) (error j)).
  set (reg := mkApp (<[job_id := j1]> (JOBS (frame st))) (threads (frame st))).
  assert (Eu : jobs_update job_id
                 (fun j => mkJob running (command j) (output_file j) (pdfs j) (error j)) st
               = (Ok tt, mkSt (world st) (logs st) reg))
    by exact (jobs_update_ok _ _ _ _ Hj).
  set (found := window_names t (fst (stat_all ps w5))).
  set (j2 := mkJob completed (command j1) (Some (path_name newest)) (Some found) (error j1)).
  exists (mkSt (snd (stat_all ps w5)) (logs st)
            (mkApp (<[job_id := j2]> (JOBS reg)) (threads reg))), j2, found.
  split; [| split; [apply lookup_insert_eq |]].
  - unfold run_scraper_task, try_except, scraper_try.
    rewrite (bind_ok _ _ _ _ _ Eu).
    erewrite bind_ok by (apply lift_total_eq; exact Et).
    erewrite bind_ok by (apply lift_eq; exact Er).
    rewrite Hrc. simpl (0 =? 0)%Z. cbv iota.
    erewrite bind_ok by reflexivity.
    erewrite bind_ok by (apply lift_eq; exact Eg).
    rewrite Hlast.
    erewrite bind_ok by (apply lift_eq; exact Ee).
    erewrite bind_ok
      by (erewrite bind_ok by (apply lift_eq; exact Ep); apply collect_pdfs_spec).
    erewrite jobs_update_ok by (simpl; apply lookup_insert_eq).
    reflexivity.
  - split; [reflexivity | split; [reflexivity | split; [reflexivity |]]].
    intros name. apply window_names_spec.
Qed.

Lemma pdf_window_witness :
  exists st' j' found,
    run_scraper_task (H := Fake.host) Fake.job_id Fake.job_cmd
        (Fake.start Fake.after_run Fake.one_job) = (Ok tt, st')
    /\ JOBS (frame st') !! Fake.job_id = Some j'
    /\ status j' = completed
    /\ output_file j' = Some (lit "web_0123456789_20251018_101500.json")
    /\ pdfs j' = Some found
    /\ (forall name,
          In name found <->
          exists p mtime,
            In (p, Ok mtime) (fst (stat_all (H := Fake.host) Fake.pdf_listing Fake.after_run))
            /\ path_name (Host := Fake.host) p = name
            /\ PrimFloat.leb (PrimFloat.sub 1730000000.5%float 1%float) mtime = true).
Proof.
  apply (pdf_window_correlation (H := Fake.host) Fake.job_id Fake.job_cmd
           (Fake.start Fake.after_run Fake.one_job) Fake.pending_job
           1730000000.5%float Fake.after_run (mkCompleted 0 [] []) Fake.after_run
           Fake.result_listing
           [lit "outputs"; lit "web_0123456789_20251018_101500.json"]
           Fake.after_run Fake.after_run Fake.pdf_listing Fake.after_run).
  - vm_compute. reflexivity.
  - reflexivity.
  - reflexivity.
  - reflexivity.
  - reflexivity.
  - reflexivity.
  - reflexivity.
  - reflexivity.
Defined.

(** Two jobs that start half a second apart over the same PDF area both list
    the PDF written after they started, and neither lists the older one nor
    the one that can no longer be examined. *)
Example overlapping_jobs_share_pdf :
  pdfs <$> (JOBS (frame (snd (run_scraper_task (H := Fake.host) Fake.job_id Fake.job_cmd
                                (Fake.start Fake.after_run Fake.one_job))))
              !! Fake.job_id)
    = Some (Some [lit "b_new.pdf"])
  /\ pdfs <$> (JOBS (frame (snd (run_scraper_task (H := Fake.host) Fake.job_id Fake.job_cmd
                                   (Fake.start Fake.after_run_later Fake.one_job))))
                 !! Fake.job_id)
     = Some (Some [lit "b_new.pdf"]).
Proof. split; vm_compute; reflexivity. Qed.

Section SubmissionFacts.
Context {H : Host}.

Lemma run_job_eq (form : gmap pystr pystr) (st : St App) :
  run_job form st =
    let (job_id, w) := uuid4_hex10 (world st) in
    match str_join (lit " ") (build_cmd form job_id) with
    | Ok joined =>
        (Ok (RedirectToStatus job_id),
         mkSt w (logs st)
           (mkApp (<[job_id := mkJob pending joined None None None]> (JOBS (frame st)))
                  (threads (frame st) ++ [(job_id, build_cmd form job_id)])))
    | Raise e => (Raise e, mkSt w (logs st) (frame st))
    end.
Proof.
  unfold run_job, bind, lift_total, of_res.
  destruct (uuid4_hex10 (world st)) as [job_id w].
  destruct (str_join (lit " ") (build_cmd form job_id)); reflexivity.
Qed.

Lemma str_join_missing (form : gmap pystr pystr) (job_id : pystr) :
  form !! lit "state" = None \/ form !! lit "district" = None
    \/ form !! lit "complex" = None ->
  exists e, str_join (lit " ") (build_cmd form job_id) = Raise e /\ exn_cls e = TypeError.
Proof.
  unfold str_join, build_cmd. intros Hmiss. revert Hmiss.
  destruct (form !! lit "state"), (form !! lit "district"), (form !! lit "complex"),
    (form !! lit "date");
    intros [E | [E | E]]; try discriminate E;
    cbn [all_strs]; eexists; split; reflexivity.
Qed.

Lemma str_join_present (form : gmap pystr pystr) (job_id s d c dt : pystr) :
  form !! lit "state" = Some s -> form !! lit "district" = Some d ->
  form !! lit "complex" = Some c -> form !! lit "date" = Some dt ->
  exists joined, str_join (lit " ") (build_cmd form job_id) = Ok joined.
Proof.
  unfold str_join, build_cmd. intros -> -> -> ->. cbn [all_strs]. eauto.
Qed.

End SubmissionFacts.

(** C10: whenever [run_job] creates a job, the command it hands to the job's
    thread ends with [--headless] and [--download-pdf], the job is stored as
    pending with that command joined by spaces, and the form enters only
    through its state, district, complex and date fields: a download flag, or
    any other field, changes nothing. *)
Theorem run_job_forces_download {H : Host}
    (form : gmap pystr pystr) (st : St App) (reply : Reply) (st' : St App) :
  run_job form st = (Ok reply, st') ->
  exists job_id cmd j,
    reply = RedirectToStatus job_id
    /\ threads (frame st') = threads (frame st) ++ [(job_id, cmd)]
    /\ JOBS (frame st') !! job_id = Some j
    /\ status j = pending
    /\ str_join (lit " ") cmd = Ok (command j)
    /\ (exists front,
          cmd = front ++ [Some (lit "--headless"); Some (lit "--download-pdf")])
    /\ (forall form' : gmap pystr pystr,
          form' !! lit "state" = form !! lit "state" ->
          form' !! lit "district" = form !! lit "district" ->
          form' !! lit "complex" = form !! lit "complex" ->
          form' !! lit "date" = form !! lit "date" ->
          run_job form' st = run_job form st).
Proof.
  rewrite run_job_eq.
  destruct (uuid4_hex10 (world st)) as [job_id w] eqn:Eu.
  destruct (str_join (lit " ") (build_cmd form job_id)) as [joined | e] eqn:Ej;
    [| discriminate].
  intros [= <- <-].
  exists job_id, (build_cmd form job_id), (mkJob pending joined None None None).
  simpl. repeat split.
  - apply lookup_insert_eq.
  - exact Ej.
  - exists (firstn 13 (build_cmd form job_id)). reflexivity.
  - intros form' Es Ed Ec Edt. rewrite run_job_eq, Eu.
    assert (build_cmd form' job_id = build_cmd form job_id) as ->
      by (unfold build_cmd; rewrite Es, Ed, Ec, Edt; reflexivity).
    rewrite Ej. reflexivity.
Qed.

Lemma run_job_forces_download_witness :
  exists job_id cmd j,
    RedirectToStatus Fake.job_id = RedirectToStatus job_id
    /\ threads (frame Fake.submitted)
       = threads (frame (Fake.start Fake.blank Fake.no_jobs)) ++ [(job_id, cmd)]
    /\ JOBS (frame Fake.submitted) !! job_id = Some j
    /\ status j = pending
    /\ str_join (lit " ") cmd = Ok (command j)
    /\ (exists front,
          cmd = front ++ [Some (lit "--headless"); Some (lit "--download-pdf")])
    /\ (forall form' : gmap pystr pystr,
          form' !! lit "state" = Fake.empty_state_form !! lit "state" ->
          form' !! lit "district" = Fake.empty_state_form !! lit "district" ->
          form' !! lit "complex" = Fake.empty_state_form !! lit "complex" ->
          form' !! lit "date" = Fake.empty_state_form !! lit "date" ->
          run_job (H := Fake.host) form' (Fake.start Fake.blank Fake.no_jobs)
            = run_job (H := Fake.host) Fake.empty_state_form
                (Fake.start Fake.blank Fake.no_jobs)).
Proof.
  apply (run_job_forces_download (H := Fake.host) Fake.empty_state_form
           (Fake.start Fake.blank Fake.no_jobs)
           (RedirectToStatus Fake.job_id) Fake.submitted).
  rewrite run_job_eq. vm_compute. reflexivity.
Defined.

(** C1, as stated, fails: the state field is submitted empty, [run_job] raises
    nothing, and the registry, empty before, holds a pending job after. *)
Lemma empty_state_submission_creates_job :
  Fake.empty_state_form !! lit "state" = Some []
  /\ fst (run_job (H := Fake.host) Fake.empty_state_form
            (Fake.start Fake.blank Fake.no_jobs))
     = Ok (RedirectToStatus Fake.job_id)
  /\ JOBS (frame (snd (run_job (H := Fake.host) Fake.empty_state_form
                         (Fake.start Fake.blank Fake.no_jobs))))
       !! Fake.job_id
     = Some (mkJob pending
               (lit "python main.py --causelist --state  --district New Delhi --complex Tis Hazari --date 2025-10-18 --output web_0123456789 --headless --download-pdf")
               None None None).
Proof. repeat split; vm_compute; reflexivity. Qed.

(** ** Further properties of the string operations *)

Lemma startswith_spec (p s : pystr) :
  startswith p s = true <-> exists t, s = p ++ t.
Proof.
  revert s. induction p as [| a p IH]; intros s; simpl.
  - split; [intros _; exists s; reflexivity | reflexivity].
  - destruct s as [| b s]; simpl.
    + split; [discriminate | intros (t & E); discriminate E].
    + rewrite andb_true_iff, N.eqb_eq, IH. split.
      * intros (-> & t & ->). exists t. reflexivity.
      * intros (t & [= -> ->]). split; [reflexivity | exists t; reflexivity].
Qed.

(** [p in s] holds exactly when [s] is some prefix, then [p], then some
    suffix; in particular the empty string is in every string. *)
Theorem contains_spec (p s : pystr) :
  contains p s = true <-> exists before after, s = before ++ p ++ after.
Proof.
  induction s as [| c s IH]; simpl.
  - rewrite orb_false_r, startswith_spec. split.
    + intros (t & E). exists [], t. exact E.
    + intros (b & a & E). destruct b; simpl in E; [exists a; exact E | discriminate E].
  - rewrite orb_true_iff, startswith_spec, IH. split.
    + intros [(t & E) | (b & a & ->)].
      * exists [], t. exact E.
      * exists (c :: b), a. reflexivity.
    + intros (b & a & E). destruct b as [| c' b]; simpl in E.
      * left. exists a. exact E.
      * right. injection E as -> ->. exists b, a. reflexivity.
Qed.

Lemma lstrip_split (s : pystr) :
  exists leading,
    s = leading ++ lstrip s /\ Forall (fun c => isspace c = true) leading.
Proof.
  induction s as [| c t (l & Et & Hl)]; simpl.
  - exists []. split; [reflexivity | constructor].
  - destruct (isspace c) eqn:Ec.
    + exists (c :: l). split; [simpl; now rewrite <- Et | now constructor].
    + exists []. split; [reflexivity | constructor].
Qed.

Lemma lstrip_head (s : pystr) (c : N) :
  head (lstrip s) = Some c -> isspace c = false.
Proof.
  induction s as [| a t IH]; simpl; [discriminate |].
  destruct (isspace a) eqn:Ea; [exact IH |].
  simpl. intros [= <-]. exact Ea.
Qed.

Lemma rstrip_cons_keep (c : N) (t : pystr) :
  isspace c = false -> exists t', rstrip (c :: t) = c :: t'.
Proof.
  intros Ec. simpl. destruct (rstrip t) as [| x t'].
  - rewrite Ec. exists []. reflexivity.
  - exists (x :: t'). reflexivity.
Qed.

Lemma rstrip_idempotent (s : pystr) : rstrip (rstrip s) = rstrip s.
Proof.
  induction s as [| c t IH]; simpl; [reflexivity |].
  destruct (rstrip t) as [| x t'] eqn:Er.
  - destruct (isspace c) eqn:Ec; simpl; [reflexivity | now rewrite Ec].
  - change (rstrip (c :: x :: t')) with
      (match rstrip (x :: t') with
       | [] => if isspace c then [] else [c]
       | y :: u => c :: y :: u
       end).
    rewrite IH. reflexivity.
Qed.

(** [s.strip()] is [s] without a run of whitespace at each end: what is
    removed is whitespace only, what is left neither starts nor ends with
    whitespace, and stripping again changes nothing. *)
Theorem strip_spec (s : pystr) :
  (exists leading trailing,
     s = leading ++ strip s ++ trailing
     /\ Forall (fun c => isspace c = true) leading
     /\ Forall (fun c => isspace c = true) trailing)
  /\ (forall c, head (strip s) = Some c -> isspace c = false)
  /\ (forall c, last (strip s) = Some c -> isspace c = false)
  /\ strip (strip s) = strip s.
Proof.
  unfold strip.
  assert (Hhead : forall c, head (rstrip (lstrip s)) = Some c -> isspace c = false).
  { intros c. destruct (lstrip s) as [| a t] eqn:El; [discriminate |].
    assert (Ea : isspace a = false) by (apply (lstrip_head s); now rewrite El).
    destruct (rstrip_cons_keep a t Ea) as (t' & ->). simpl. intros [= <-]. exact Ea. }
  split; [| split; [exact Hhead | split; [apply rstrip_last |]]].
  - destruct (lstrip_split s) as (l & El & Hl).
    destruct (rstrip_split (lstrip s)) as (r & Er & Hr).
    exists l, r. split; [| split; assumption].
    rewrite <- Er. exact El.
  - destruct (rstrip (lstrip s)) as [| a t] eqn:E; [reflexivity |].
    assert (Ea : isspace a = false) by (apply Hhead; reflexivity).
    simpl lstrip. rewrite Ea. rewrite <- E. apply rstrip_idempotent.
Qed.

Section SanitizeFacts.
Context {H : Host}.

Lemma sanitize_kept (label : pystr) : Forall (fun c => keep_char c = true) (sanitize label).
Proof.
  destruct (rstrip_split (List.filter keep_char label)) as (tr & E & _).
  assert (Hf : Forall (fun c => keep_char c = true) (List.filter keep_char label)).
  { apply List.Forall_forall. intros c Hc. apply List.filter_In in Hc. tauto. }
  fold (sanitize label) in E. rewrite E in Hf.
  apply Forall_app in Hf. tauto.
Qed.

Lemma filter_all_kept (s : pystr) :
  Forall (fun c => keep_char c = true) s -> List.filter keep_char s = s.
Proof.
  induction 1 as [| c t Hc _ IH]; simpl; [reflexivity |].
  now rewrite Hc, IH.
Qed.

End SanitizeFacts.

Lemma sublist_list_filter {A} (f : A -> bool) (l : list A) :
  sublist (List.filter f l) l.
Proof.
  induction l as [| x l IH]; simpl; [constructor |].
  destruct (f x); [apply sublist_skip | apply sublist_cons]; exact IH.
Qed.

(** X1: a sanitized judge label holds only characters of the allow-list, so
    it holds no slash, backslash or NUL; it is a subsequence of the label; and
    sanitizing it again changes nothing. *)
Theorem sanitize_safe_and_idempotent {H : Host} (label : pystr) :
  Forall (fun c => keep_char c = true) (sanitize label)
  /\ (forall c, In c (sanitize label) -> c <> 47 /\ c <> 92 /\ c <> 0)
  /\ sublist (sanitize label) label
  /\ sanitize (sanitize label) = sanitize label.
Proof.
  pose proof (sanitize_kept label) as Hk.
  split; [exact Hk | split; [| split]].
  - intros c Hc. rewrite List.Forall_forall in Hk. specialize (Hk c Hc).
    repeat split; intros ->; vm_compute in Hk; discriminate Hk.
  - destruct (rstrip_split (List.filter keep_char label)) as (tr & E & _).
    fold (sanitize label) in E.
    transitivity (List.filter keep_char label).
    + rewrite E. apply sublist_inserts_r. reflexivity.
    + apply sublist_list_filter.
  - unfold sanitize at 1. rewrite (filter_all_kept _ Hk).
    unfold sanitize. apply rstrip_idempotent.
Qed.

(** ** Further properties of the extraction engine *)
Section PostFacts.
Context {H : Host}.

Lemma post_of_inv {L A} (P : L -> Prop) (m : M L A) :
  frame_inv P m -> frame_post P m (fun _ => True).
Proof. intros Hm st HP. split; [apply Hm, HP | trivial]. Qed.

Lemma post_ret {L A} (P : L -> Prop) (R : A -> Prop) (a : A) :
  R a -> frame_post P (ret a) R.
Proof. intros Ha st HP. split; [exact HP |]. intros b [= <-]. exact Ha. Qed.

Lemma post_bind {L A B} (P : L -> Prop) (m : M L A) (k : A -> M L B)
    (R : A -> Prop) (R' : B -> Prop) :
  frame_post P m R -> (forall a, R a -> frame_post P (k a) R') ->
  frame_post P (bind m k) R'.
Proof.
  intros Hm Hk st HP. unfold bind.
  destruct (Hm st HP) as [HP' HR]. destruct (m st) as [[a | e] st']; simpl in *.
  - apply Hk; [apply HR; reflexivity | exact HP'].
  - split; [exact HP' | discriminate].
Qed.

Lemma post_weaken {L A} (P : L -> Prop) (m : M L A) (R R' : A -> Prop) :
  (forall a, R a -> R' a) -> frame_post P m R -> frame_post P m R'.
Proof. intros HR Hm st HP. destruct (Hm st HP) as [HP' Ha]. split; auto. Qed.

Lemma post_inv {L A} (P : L -> Prop) (m : M L A) (R : A -> Prop) :
  frame_post P m R -> frame_inv P m.
Proof. intros Hm st HP. apply (Hm st HP). Qed.

Lemma download_attachment_result {L} (P : L -> Prop) url filename :
  frame_post P (@download_attachment H L url filename)
    (fun r => r = None \/ r = Some filename).
Proof.
  intros st HP. split; [apply inv_download_attachment, HP |].
  unfold download_attachment, try_except, bind, lift, logging_info, logging_error, ret.
  simpl. destruct (request_get url 60000 (world st)) as [[resp | e] w1]; simpl.
  - destruct (response_ok resp); simpl.
    + destruct (mkdir_parents (path_parent filename) w1) as [[[] | e] w2]; simpl.
      * destruct (response_body resp w2) as [[body | e] w3]; simpl.
        -- destruct (write_bytes filename body w3) as [[[] | e] w4]; simpl;
             intros a [= <-]; auto.
        -- intros a [= <-]; auto.
      * intros a [= <-]; auto.
    + intros a [= <-]; auto.
  - intros a [= <-]; auto.
Qed.

End PostFacts.

(** X2: [download_attachment] raises nothing, whatever the request, the
    directory creation or the write do: it returns [None] or the file name it
    was given, and it leaves its caller's objects alone. *)
Theorem download_attachment_never_raises {H : Host} {L}
    (url : pystr) (filename : Path) (st : St L) :
  exists r st',
    download_attachment url filename st = (Ok r, st')
    /\ (r = None \/ r = Some filename)
    /\ frame st' = frame st.
Proof.
  pose proof (download_attachment_result (fun l => l = frame st) url filename st eq_refl)
    as [Hf Hr].
  assert (Hok : exists r, fst (download_attachment url filename st) = Ok r).
  { unfold download_attachment, try_except.
    destruct (bind _ _ st) as [[r | e] st1]; simpl; [eauto |].
    unfold bind, logging_error, ret. simpl. eauto. }
  destruct Hok as [r Er].
  destruct (download_attachment url filename st) as [r0 st'] eqn:E. simpl in *. subst r0.
  exists r, st'. split; [reflexivity |]. split; [apply Hr; reflexivity | exact Hf].
Qed.

(** X3: when [download_attachment] reports a saved path, the response was
    OK, the directory was made, the body was read and the bytes were written
    to that very file. *)
Theorem download_saved_means_written {H : Host} {L}
    (url : pystr) (filename p : Path) (st st' : St L) :
  download_attachment url filename st = (Ok (Some p), st') ->
  p = filename
  /\ exists resp w1 w2 body w3,
       request_get url 60000 (world st) = (Ok resp, w1)
       /\ response_ok resp = true
       /\ mkdir_parents (path_parent filename) w1 = (Ok tt, w2)
       /\ response_body resp w2 = (Ok body, w3)
       /\ write_bytes filename body w3 = (Ok tt, world st').
Proof.
  unfold download_attachment, try_except, bind, lift, logging_info, logging_error, ret.
  simpl. destruct (request_get url 60000 (world st)) as [[resp | e] w1] eqn:Eg; simpl;
    [| intros [= ]].
  destruct (response_ok resp) eqn:Eok; simpl; [| intros [= ]].
  destruct (mkdir_parents (path_parent filename) w1) as [[[] | e] w2] eqn:Em; simpl;
    [| intros [= ]].
  destruct (response_body resp w2) as [[body | e] w3] eqn:Eb; simpl; [| intros [= ]].
  destruct (write_bytes filename body w3) as [[[] | e] w4] eqn:Ew; simpl; [| intros [= ]].
  intros [= <- <-]. split; [reflexivity |].
  exists resp, w1, w2, body, w3. simpl. repeat split; assumption.
Qed.

Lemma download_saved_witness :
  Scene.pdf_path = Scene.pdf_path
  /\ exists (resp : bool * Z) (w1 w2 : Fake.script) (body : list Byte.byte)
            (w3 : Fake.script),
       request_get (Host := Fake.host) (lit "/cl/x.pdf") 60000 Scene.downloads_ok
         = (Ok resp, w1)
       /\ response_ok (Host := Fake.host) resp = true
       /\ mkdir_parents (Host := Fake.host)
            (path_parent (Host := Fake.host) Scene.pdf_path) w1 = (Ok tt, w2)
       /\ response_body (Host := Fake.host) resp w2 = (Ok body, w3)
       /\ write_bytes (Host := Fake.host) Scene.pdf_path body w3
          = (Ok tt, Fake.record_write Scene.pdf_path Scene.downloads_ok).
Proof.
  apply (download_saved_means_written (H := Fake.host) (L := unit)
           (lit "/cl/x.pdf") Scene.pdf_path Scene.pdf_path
           (Fake.start Scene.downloads_ok tt)
           (mkSt (H := Fake.host) (Fake.record_write Scene.pdf_path Scene.downloads_ok)
              [Log INFO (lit "Downloading /cl/x.pdf to outputs/pdfs/x.pdf...") false;
               Log INFO (lit "Successfully saved outputs/pdfs/x.pdf") false]
              tt)).
  vm_compute. reflexivity.
Defined.

Section RowFacts.
Context {H : Host}.

Lemma inv_cnr_row cnr dl r :
  frame_inv (Forall (row_ok cnr dl)) (cnr_row cnr dl r).
Proof.
  unfold cnr_row.
  apply inv_bind; [apply inv_lift | intros t].
  destruct (negb (truthy (strip t)) || negb (contains cnr (strip t))) eqn:Ec;
    [apply inv_ret |].
  apply orb_false_elim in Ec as [E1 E2].
  apply negb_false_iff in E1. apply negb_false_iff in E2.
  apply inv_bind; [apply inv_lift | intros cells].
  apply inv_bind; [apply inv_cell_text | intros serial].
  apply inv_bind; [apply inv_cell_text | intros court].
  apply inv_bind; [apply inv_lift | intros anchor].
  apply inv_bind; [destruct anchor; [apply inv_lift | apply inv_ret] | intros link].
  cbv zeta.
  apply (post_inv _ _ (fun _ => True)).
  apply (post_bind _ _ _ (row_ok cnr dl)).
  - assert (Hplain : row_ok cnr dl (mkCaseRow (strip t) serial court link None)).
    { split; [exact E1 | split; [exact E2 | split; [| apply strip_spec]]].
      simpl. intros Hn. now contradiction Hn. }
    destruct link as [url |]; [| apply post_ret, Hplain].
    destruct (dl && truthy url) eqn:Ed; [| apply post_ret, Hplain].
    apply andb_true_iff in Ed as [Edl Eurl].
    eapply post_bind; [apply post_of_inv, inv_lift_total | intros now _].
    eapply post_bind; [apply post_of_inv, inv_of_res | intros secs _].
    eapply post_bind; [apply download_attachment_result | intros saved _].
    destruct saved; apply post_ret; [| exact Hplain].
    split; [exact E1 | split; [exact E2 | split; [| apply strip_spec]]].
    simpl. intros _. split; [exact Edl | exact Eurl].
  - intros item Hitem. apply post_of_inv, inv_modify_frame.
    intros l Hl. apply Forall_app. split; [exact Hl | constructor; [exact Hitem | constructor]].
Qed.

Lemma inv_cnr_try cnr dl :
  frame_inv (Forall (row_ok cnr dl)) (cnr_try cnr dl).
Proof.
  unfold cnr_try, cnr_settle, cnr_extract.
  apply inv_bind; [apply inv_cnr_submit | intros _].
  apply inv_bind; [apply inv_lift | intros _].
  apply inv_bind; [apply inv_lift | intros rows].
  apply inv_bind; [apply inv_logging_info | intros _].
  apply inv_for_each. intros r. apply inv_cnr_row.
Qed.

Lemma truthy_strip_or_default (t : pystr) (idx : nat) :
  truthy (if truthy (strip t) then strip t else lit "Judge_" ++ str_of_nat (idx + 1)) = true.
Proof. destruct (truthy (strip t)) eqn:E; [exact E | reflexivity]. Qed.

Lemma inv_judge_link_ok s d c dt complex_name date_str dl idx link :
  frame_inv (fun out => same_request s d c dt out /\ Forall (judge_ok dl) (cl_judges out))
    (judge_link complex_name date_str dl idx link).
Proof.
  unfold judge_link.
  apply inv_bind; [apply inv_lift | intros href].
  apply inv_bind; [apply inv_lift | intros t].
  cbv zeta.
  pose proof (truthy_strip_or_default t idx) as Ht.
  set (label := if truthy (strip t) then strip t else lit "Judge_" ++ str_of_nat (idx + 1)) in *.
  apply (post_inv _ _ (fun _ => True)).
  apply (post_bind _ _ _ (judge_ok dl)).
  - assert (Hplain : judge_ok dl (mkJudgeEntry label href None)).
    { split; simpl; [exact Ht |]. intros Hn. now contradiction Hn. }
    destruct href as [url |]; [| apply post_ret, Hplain].
    destruct (dl && truthy url) eqn:Ed; [| apply post_ret, Hplain].
    apply andb_true_iff in Ed as [Edl Eurl].
    eapply post_bind; [apply download_attachment_result | intros saved _].
    destruct saved; apply post_ret; [| exact Hplain].
    split; simpl; [exact Ht |]. intros _. split; [exact Edl | exact Eurl].
  - intros entry He. apply post_of_inv, inv_modify_frame.
    intros out [Hr Hj]. split; [exact Hr |]. simpl.
    apply Forall_app. split; [exact Hj | constructor; [exact He | constructor]].
Qed.

End RowFacts.

(** X4: [find_case_by_cnr] raises nothing on any host: it returns a list of
    rows and leaves its caller's objects alone. Every row it returns has a
    non-empty text, without whitespace at either end, of which the CNR is a
    substring, and carries a saved path only when downloads were asked for and
    the row has a non-empty link. *)
Theorem cnr_lookup_rows_match {H : Host} {L}
    (cnr d : pystr) (dl : bool) (st : St L) :
  exists rows st',
    find_case_by_cnr cnr d dl st = (Ok rows, st')
    /\ frame st' = frame st
    /\ (forall r, In r rows ->
          truthy (row_text r) = true
          /\ strip (row_text r) = row_text r
          /\ (exists before after, row_text r = before ++ cnr ++ after)
          /\ (downloaded_pdf r <> None -> dl = true /\ truthy_opt (pdf_link r) = true)).
Proof.
  unfold find_case_by_cnr, with_local.
  set (st0 := mkSt (world st) (logs st) (@nil CaseRow)).
  set (body := try_except _ _).
  assert (Hinv : frame_inv (Forall (row_ok cnr dl)) body).
  { subst body. apply inv_try_except; [apply inv_cnr_try |].
    intros e. unfold cnr_except. frame_auto. }
  assert (Hok : exists st1, body st0 = (Ok tt, st1)).
  { subst body. unfold try_except.
    destruct (cnr_try cnr dl st0) as [[[] | e] st1]; [eauto |].
    destruct (cnr_except_logs e st1) as (r & _ & ->). eauto. }
  destruct Hok as [st1 E].
  assert (HP0 : Forall (row_ok cnr dl) (frame st0)) by constructor.
  specialize (Hinv st0 HP0). rewrite E in Hinv. simpl in Hinv.
  unfold bind. rewrite E. simpl.
  exists (frame st1), (mkSt (world st1) (logs st1) (frame st)).
  split; [reflexivity | split; [reflexivity |]].
  intros r Hr. rewrite List.Forall_forall in Hinv.
  destruct (Hinv r Hr) as (Ht & Hc & Hd & Hs).
  split; [exact Ht | split; [exact Hs | split; [| exact Hd]]].
  apply contains_spec, Hc.
Qed.

(** On every host, also one whose reads raise: every judge entry that
    [download_causelist_for_complex] returns has a non-empty label, and
    carries a saved path only when downloads were asked for and the entry has
    a non-empty link. *)
Theorem causelist_entries_labelled {H : Host} {L}
    (s d c dt : pystr) (dl : bool) (st : St L) :
  exists judges st',
    download_causelist_for_complex s d c dt dl st
      = (Ok (mkCauseList s d c dt judges), st')
    /\ (forall e, In e judges ->
          truthy (judge_text e) = true
          /\ (judge_downloaded_pdf e <> None ->
              dl = true /\ truthy_opt (judge_pdf_link e) = true)).
Proof.
  unfold download_causelist_for_complex, with_local.
  set (st0 := mkSt (world st) (logs st) (mkCauseList s d c dt [])).
  set (body := try_except _ _).
  set (P := fun out => same_request s d c dt out /\ Forall (judge_ok dl) (cl_judges out)).
  assert (Hinv : frame_inv P body).
  { subst body. apply inv_try_except.
    - apply inv_bind; [apply inv_causelist_form | intros _].
      unfold causelist_scrape.
      apply inv_bind; [apply inv_lift | intros links].
      apply inv_bind; [apply inv_logging_info | intros _].
      apply inv_for_each_from. intros i x. apply inv_judge_link_ok.
    - intros e. unfold causelist_except. frame_auto. }
  assert (Hok : exists st1, body st0 = (Ok tt, st1)).
  { subst body. unfold try_except.
    destruct (bind _ _ st0) as [[[] | e] st1]; [eauto |].
    destruct (causelist_except_logs e st1) as (r & _ & ->). eauto. }
  destruct Hok as [st1 E].
  assert (HP0 : P (frame st0)) by (split; [repeat split | constructor]).
  specialize (Hinv st0 HP0). rewrite E in Hinv. simpl in Hinv.
  destruct Hinv as [Hreq Hj].
  unfold bind. rewrite E. simpl.
  exists (cl_judges (frame st1)), (mkSt (world st1) (logs st1) (frame st)).
  split.
  - rewrite <- same_request_eq; [reflexivity | exact Hreq].
  - intros e He. rewrite List.Forall_forall in Hj. exact (Hj e He).
Qed.

Section CountFacts.
Context {H : Host}.

Lemma rel_bind_stable {L A B} (m : M L A) (k : A -> M L B) (R E : L -> L -> Prop) :
  (forall P, frame_inv P m) -> (forall l, E l l) ->
  (forall a, frame_rel R E (k a)) -> frame_rel R E (bind m k).
Proof.
  intros Hm Hrefl Hk st. unfold bind.
  pose proof (Hm (fun l => l = frame st) st eq_refl) as Hf.
  destruct (m st) as [[a | e] s1]; simpl in Hf.
  - specialize (Hk a s1). rewrite Hf in Hk. exact Hk.
  - rewrite Hf. apply Hrefl.
Qed.

Lemma judge_link_effect complex_name date_str dl idx link :
  frame_rel one_more eq (judge_link complex_name date_str dl idx link).
Proof.
  unfold judge_link.
  apply rel_bind_stable; [intros P; apply inv_lift | reflexivity | intros href].
  apply rel_bind_stable; [intros P; apply inv_lift | reflexivity | intros t].
  cbv zeta.
  apply rel_bind_stable; [| reflexivity |].
  - intros P. frame_auto; try apply inv_download_attachment.
  - intros entry st. simpl. exists entry. reflexivity.
Qed.

Lemma for_each_from_count (body : nat -> Element -> M CauseList unit) :
  (forall i x, frame_rel one_more eq (body i x)) ->
  forall xs idx,
    frame_rel
      (fun l l' => exists es, cl_judges l' = cl_judges l ++ es /\ length es = length xs)
      (fun l l' => exists es, cl_judges l' = cl_judges l ++ es /\ (length es < length xs)%nat)
      (for_each_from idx xs body).
Proof.
  intros Hb. induction xs as [| x rest IH]; intros idx st; simpl.
  - exists []. split; [now rewrite app_nil_r | reflexivity].
  - unfold bind. specialize (Hb idx x st).
    destruct (body idx x st) as [[[] | e] s1].
    + destruct Hb as [e1 He1]. specialize (IH (S idx) s1).
      destruct (for_each_from (S idx) rest body s1) as [[[] | e] s2];
        destruct IH as (es & Hes & Hlen); exists (e1 :: es);
        (split; [rewrite Hes, He1, <- app_assoc; reflexivity | simpl; lia]).
    + exists []. split; [rewrite <- Hb, app_nil_r; reflexivity | simpl; lia].
Qed.

End CountFacts.

(** X6: the form was submitted and the page lists [links] as its PDF
    anchors. Then the record returned has at most one judge entry per anchor,
    and exactly one per anchor when the scraping loop raised nothing: a
    download that fails, or is not asked for, removes no entry. *)
Theorem causelist_one_entry_per_link {H : Host} {L}
    (s d c dt : pystr) (dl : bool) (st : St L) (st1 : St CauseList)
    (links : list Element) (w2 : World) :
  causelist_form s d c dt (mkSt (world st) (logs st) (mkCauseList s d c dt []))
    = (Ok tt, st1) ->
  page_query_selector_all PDF_ANCHOR (world st1) = (Ok links, w2) ->
  exists out st',
    download_causelist_for_complex s d c dt dl st = (Ok out, st')
    /\ (length (cl_judges out) <= length links)%nat
    /\ (fst (causelist_scrape c dt dl st1) = Ok tt ->
        length (cl_judges out) = length links).
Proof.
  intros Ef Eq.
  assert (Hf : frame st1 = mkCauseList s d c dt []).
  { pose proof (inv_causelist_form (fun l => l = mkCauseList s d c dt []) s d c dt
                  (mkSt (world st) (logs st) (mkCauseList s d c dt [])) eq_refl) as Hs.
    rewrite Ef in Hs. exact Hs. }
  set (s2 := mkSt w2
               (logs st1 ++ [Log INFO (lit "Found " ++ str_of_nat (length links)
                                         ++ lit " judge cause list PDFs.") false])
               (frame st1)).
  assert (Es : causelist_scrape c dt dl st1
               = for_each_from 0 links (judge_link c dt dl) s2).
  { unfold causelist_scrape.
    erewrite bind_ok by (apply lift_eq; exact Eq).
    erewrite bind_ok by reflexivity. reflexivity. }
  pose proof (for_each_from_count (judge_link c dt dl) (judge_link_effect c dt dl)
                links 0 s2) as Hloop.
  unfold download_causelist_for_complex, with_local, bind at 1, try_except.
  rewrite (bind_ok _ _ _ _ _ Ef), Es.
  destruct (for_each_from 0 links (judge_link c dt dl) s2) as [[[] | e] s3];
    destruct Hloop as (es & Hes & Hlen); simpl in Hes; rewrite Hf in Hes; simpl in Hes.
  - simpl. do 2 eexists. split; [reflexivity |]. rewrite Hes. split; [lia | intros _; lia].
  - destruct (causelist_except_logs e s3) as (r & _ & ->). simpl.
    do 2 eexists. split; [reflexivity |]. rewrite Hes. split; [lia | discriminate].
Qed.

Lemma causelist_one_entry_witness :
  exists out st',
    download_causelist_for_complex (H := Fake.host) Fake.delhi Fake.new_delhi
        Fake.tis_hazari Fake.day true (Fake.start Scene.two_judges tt) = (Ok out, st')
    /\ (length (cl_judges out) <= length (Fake.page_elements Scene.two_judges))%nat
    /\ (fst (causelist_scrape (H := Fake.host) Fake.tis_hazari Fake.day true
               (mkSt (H := Fake.host) Scene.two_judges
                  [Log INFO
                     (lit "Fetching cause list for Tis Hazari, New Delhi, Delhi on 2025-10-18")
                     false]
                  (mkCauseList Fake.delhi Fake.new_delhi Fake.tis_hazari Fake.day [])))
          = Ok tt ->
        length (cl_judges out) = length (Fake.page_elements Scene.two_judges)).
Proof.
  apply (causelist_one_entry_per_link (H := Fake.host) Fake.delhi Fake.new_delhi
           Fake.tis_hazari Fake.day true (Fake.start Scene.two_judges tt)
           (mkSt (H := Fake.host) Scene.two_judges
              [Log INFO
                 (lit "Fetching cause list for Tis Hazari, New Delhi, Delhi on 2025-10-18")
                 false]
              (mkCauseList Fake.delhi Fake.new_delhi Fake.tis_hazari Fake.day []))
           (Fake.page_elements Scene.two_judges) Scene.two_judges).
  - vm_compute. reflexivity.
  - reflexivity.
Defined.

(** On the scripted page with two judge links, where every download times
    out: both entries are returned, the blank label becomes [Judge_2], and no
    entry has a saved path. *)
Example two_judges_failed_downloads :
  fst (download_causelist_for_complex (H := Fake.host) Fake.delhi Fake.new_delhi
         Fake.tis_hazari Fake.day true (Fake.start Scene.two_judges tt))
  = Ok (mkCauseList Fake.delhi Fake.new_delhi Fake.tis_hazari Fake.day
          [mkJudgeEntry (lit "Hon'ble J. Smith/Court-2") (Some (lit "/cl/smith.pdf")) None;
           mkJudgeEntry (lit "Judge_2") (Some (lit "/cl/other.pdf")) None]).
Proof. vm_compute. reflexivity. Qed.

(** ** Further properties of the command line *)

(** X7: with [--today] or [--tomorrow], or with no date or an empty one,
    [get_date_to_check] raises nothing, whatever [--date] holds beside the
    flag: the date string is parsed only when neither flag is set. It adds
    no log record and leaves its caller's objects alone. *)
Theorem get_date_to_check_without_parsing {H : Host} {L} (args : Args) (st : St L) :
  a_today args = true \/ a_tomorrow args = true \/ truthy_opt (a_date args) = false ->
  exists date_str w,
    get_date_to_check args st = (Ok date_str, mkSt w (logs st) (frame st)).
Proof.
  intros Hc. unfold get_date_to_check, bind, lift_total, ret, of_res.
  destruct (datetime_now (world st)) as [now w] eqn:En.
  destruct (a_today args); [rewrite En; eauto |].
  destruct (a_tomorrow args); [rewrite En; eauto |].
  destruct Hc as [Hc | [Hc | Hc]]; try discriminate Hc.
  destruct (a_date args) as [d |]; simpl in Hc; [rewrite Hc |]; rewrite En; eauto.
Qed.

Lemma get_date_to_check_witness :
  exists date_str w,
    get_date_to_check (H := Fake.host)
        (mkArgs true false (Some (lit "not a date")) None None None None None None None
                false false true None)
        (Fake.start Fake.blank tt)
      = (Ok date_str, mkSt (H := Fake.host) w [] tt).
Proof.
  apply (get_date_to_check_without_parsing (H := Fake.host)
           (mkArgs true false (Some (lit "not a date")) None None None None None None None
                   false false true None)
           (Fake.start Fake.blank tt)).
  left. reflexivity.
Defined.

Lemma startswith_app (p t : pystr) : startswith p (p ++ t) = true.
Proof. apply startswith_spec. exists t. reflexivity. Qed.

Lemma endswith_app (t suffix : pystr) : endswith suffix (t ++ suffix) = true.
Proof. unfold endswith. rewrite rev_app_distr. apply startswith_app. Qed.

(** X8: [save_json] writes one file and returns its path: the path pathlib
    makes of the output directory and a string [name]. That string starts with
    the base name (or with [ecourts_result] when the base name is missing or
    empty) followed by an underscore, and ends with [.json]; for the base name
    [web_<job_id>] it has the shape [web_<job_id>_*.json]. Where the path lies
    is pathlib's business: nothing here says that it is a file of that name
    inside the output directory, which it is not when the base name is
    absolute or holds a separator. *)
Theorem save_json_file_name {H : Host} {L}
    (data : Metadata) (basename : option pystr) (st : St L)
    (now : DateTime) (w1 : World) :
  datetime_now (world st) = (now, w1) ->
  exists name,
    startswith
      ((match basename with
        | Some b => if truthy b then b else lit "ecourts_result"
        | None => lit "ecourts_result"
        end) ++ lit "_") name = true
    /\ endswith (lit ".json") name = true
    /\ (forall job_id, basename = Some (lit "web_" ++ job_id) ->
        startswith (lit "web_" ++ job_id ++ lit "_") name = true)
    /\ (forall r w2,
          write_json (path_div OUTPUT_DIR name) data w1 = (r, w2) ->
          save_json data basename st
            = (match r with
               | Ok _ => Ok (path_div OUTPUT_DIR name)
               | Raise e => Raise e
               end,
               mkSt w2 (logs st) (frame st))).
Proof.
  intros En.
  set (base := match basename with
               | Some b => if truthy b then b else lit "ecourts_result"
               | None => lit "ecourts_result"
               end).
  exists (base ++ lit "_" ++ strftime now (lit "%Y%m%d_%H%M%S") ++ lit ".json").
  split; [| split; [| split]].
  - rewrite (app_assoc base). apply startswith_app.
  - rewrite 2!app_assoc. apply endswith_app.
  - intros job_id ->. change base with (lit "web_" ++ job_id).
    apply startswith_spec. exists (strftime now (lit "%Y%m%d_%H%M%S") ++ lit ".json").
    rewrite <- !app_assoc. reflexivity.
  - intros r w2 Ew. unfold save_json.
    erewrite bind_ok by (apply lift_total_eq; exact En).
    cbv zeta. fold base. unfold bind, lift, ret. cbn [world logs frame].
    rewrite Ew. destruct r as [[] | e]; reflexivity.
Qed.

Lemma save_json_file_name_witness :
  exists name,
    startswith ((if truthy (lit "web_0123456789") then lit "web_0123456789"
                 else lit "ecourts_result") ++ lit "_") name = true
    /\ endswith (lit ".json") name = true
    /\ (forall job_id, Some (lit "web_0123456789") = Some (lit "web_" ++ job_id) ->
        startswith (lit "web_" ++ job_id ++ lit "_") name = true)
    /\ (forall r w2,
          write_json (Host := Fake.host) (path_div (Host := Fake.host) OUTPUT_DIR name)
              (mkMetadata [] [] Scene.no_args None) Fake.blank = (r, w2) ->
          save_json (H := Fake.host) (mkMetadata [] [] Scene.no_args None)
              (Some (lit "web_0123456789")) (Fake.start Fake.blank tt)
            = (match r with
               | Ok _ => Ok (path_div (Host := Fake.host) OUTPUT_DIR name)
               | Raise e => Raise e
               end,
               mkSt (H := Fake.host) w2 [] tt)).
Proof.
  apply (save_json_file_name (H := Fake.host) (mkMetadata [] [] Scene.no_args None)
           (Some (lit "web_0123456789")) (Fake.start Fake.blank tt) 0%Z Fake.blank).
  reflexivity.
Defined.

Section MainFacts.
Context {H : Host}.



Lemma main_action_rejected {L} (args : Args) (date_str : pystr) (st : St L) :
  truthy_opt (a_cnr args) = false ->
  a_causelist args = true ->
  truthy_opt (a_state args) = false \/ truthy_opt (a_district args) = false
    \/ truthy_opt (a_complex args) = false ->
  main_action args date_str st
    = (Ok (mkResultData None None),
       mkSt (world st)
         (logs st
            ++ [Log ERROR (lit "[!] --causelist requires --state, --district, and --complex")
                  false])
         (frame st)).
Proof.
  intros Hcnr Hcl Hmiss. unfold main_action. rewrite Hcnr, Hcl.
  assert (Hc : negb (truthy_opt (a_state args)) || negb (truthy_opt (a_district args))
               || negb (truthy_opt (a_complex args)) = true).
  { destruct Hmiss as [E | [E | E]]; rewrite E; simpl; rewrite ?orb_true_r; reflexivity. }
  rewrite Hc. reflexivity.
Qed.

End MainFacts.

(** Runs one host operation whose outcome a hypothesis gives. *)
Ltac run_op E :=
  first
    [ erewrite bind_ok
        by (try unfold lift; try unfold lift_total; cbn [world logs frame];
            rewrite E; reflexivity)
    | erewrite bind_raise
        by (try unfold lift; try unfold lift_total; cbn [world logs frame];
            rewrite E; reflexivity) ].



(** X10: [main] is given a cause-list request without a CNR whose state,
    district or complex is missing or empty, and the browser session opens and
    closes normally. Then [main] touches nothing but the session: it prints
    nothing and writes no file, it logs the one error, and it ends the way
    leaving the Playwright context ends. *)
Theorem main_rejects_incomplete_causelist {H : Host} {L}
    (args : Args) (st st1 : St L) (date_str : pystr)
    (w2 w3 w4 w5 : World) (now : DateTime) (w6 w7 w8 : World)
    (r : Res unit) (w9 : World) :
  truthy_opt (a_cnr args) = false ->
  a_causelist args = true ->
  truthy_opt (a_state args) = false \/ truthy_opt (a_district args) = false
    \/ truthy_opt (a_complex args) = false ->
  get_date_to_check args st = (Ok date_str, st1) ->
  playwright_enter (world st1) = (Ok tt, w2) ->
  chromium_launch (a_headless args) w2 = (Ok tt, w3) ->
  new_context w3 = (Ok tt, w4) ->
  new_page w4 = (Ok tt, w5) ->
  datetime_now w5 = (now, w6) ->
  context_close w6 = (Ok tt, w7) ->
  browser_close w7 = (Ok tt, w8) ->
  playwright_exit w8 = (r, w9) ->
  main args st
    = (r,
       mkSt w9
         (logs st1
            ++ [Log ERROR (lit "[!] --causelist requires --state, --district, and --complex")
                  false])
         (frame st1)).
Proof.
  intros Hcnr Hcl Hmiss Ed Ee El Ec Ep En Ecc Ebc Ex.
  unfold main. rewrite (bind_ok _ _ _ _ _ Ed).
  run_op Ee. unfold try_finally.
  run_op El. run_op Ec. run_op Ep. run_op En. cbv zeta.
  rewrite (bind_ok _ _ _ _ _ (main_action_rejected args date_str _ Hcnr Hcl Hmiss)).
  cbn [result_data_nonempty cases_found cause_list].
  erewrite bind_ok by reflexivity.
  run_op Ecc.
  unfold lift. cbn [world logs frame]. rewrite Ebc. cbn [world logs frame]. rewrite Ex.
  destruct r as [[] | e]; reflexivity.
Qed.

Lemma main_rejects_incomplete_witness :
  main (H := Fake.host) Scene.empty_district_args (Fake.start Fake.blank tt)
    = (Ok tt,
       mkSt (H := Fake.host) Fake.blank
         ([] ++ [Log ERROR (lit "[!] --causelist requires --state, --district, and --complex")
                   false])
         tt).
Proof.
  apply (main_rejects_incomplete_causelist (H := Fake.host) Scene.empty_district_args
           (Fake.start Fake.blank tt) (Fake.start Fake.blank tt) (lit "0")
           Fake.blank Fake.blank Fake.blank Fake.blank 0%Z Fake.blank Fake.blank Fake.blank
           (Ok tt) Fake.blank).
  - reflexivity.
  - reflexivity.
  - right. left. reflexivity.
  - vm_compute. reflexivity.
  - reflexivity.
  - reflexivity.
  - reflexivity.
  - reflexivity.
  - reflexivity.
  - reflexivity.
  - reflexivity.
  - reflexivity.
Defined.

(** ** Further properties of the job orchestrator *)
Section TaskFacts.
Context {H : Host}.

Lemma inv_collect_pdfs {L} (P : L -> Prop) ps start_time acc :
  frame_inv P (@collect_pdfs H L ps start_time acc).
Proof.
  intros st HP. rewrite collect_pdfs_spec. exact HP.
Qed.

Lemma inv_jobs_update (job_id : pystr) (f : Job -> Job) (app0 : App) :
  frame_inv (rest_of_registry job_id app0) (jobs_update job_id f).
Proof.
  intros st [Hj Ht]. unfold rest_of_registry, jobs_update.
  destruct (JOBS (frame st) !! job_id); cbn [snd frame JOBS threads];
    [| split; assumption].
  split; [| exact Ht].
  intros other Hne. rewrite lookup_insert_ne by congruence. apply Hj, Hne.
Qed.

Lemma inv_run_scraper_task (job_id : pystr) cmd (app0 : App) :
  frame_inv (rest_of_registry job_id app0) (run_scraper_task job_id cmd).
Proof.
  unfold run_scraper_task, scraper_try.
  apply inv_try_except; [| intros e; apply inv_jobs_update].
  apply inv_bind; [apply inv_jobs_update | intros _].
  apply inv_bind; [apply inv_lift_total | intros t].
  apply inv_bind; [apply inv_lift | intros cp].
  apply inv_bind; [destruct (returncode cp =? 0)%Z; [apply inv_ret | apply inv_raise] |
                   intros _].
  apply inv_bind; [apply inv_lift | intros files].
  destruct (last files); [| apply inv_raise].
  cbv zeta.
  apply inv_bind; [apply inv_lift | intros present].
  apply inv_bind; [| intros found; apply inv_jobs_update].
  destruct present; [| apply inv_ret].
  apply inv_bind; [apply inv_lift | intros ps; apply inv_collect_pdfs].
Qed.

Lemma scraper_try_effect (job_id : pystr) cmd :
  frame_rel (job_done job_id) (job_kept job_id) (scraper_try job_id cmd).
Proof.
  intros st. unfold scraper_try.
  destruct (JOBS (frame st) !! job_id) as [j |] eqn:Hj.
  - rewrite (bind_ok _ _ _ _ _ (jobs_update_ok _ _ _ _ Hj)).
    set (j1 := mkJob running (command j) (output_file j) (pdfs j) (error j)).
    assert (Hkept : forall w l,
              job_kept job_id (frame st)
                (frame (mkSt w l (mkApp (<[job_id := j1]> (JOBS (frame st)))
                                        (threads (frame st)))))).
    { intros w l j0 Hj0. rewrite Hj in Hj0. injection Hj0 as <-.
      exists j1. simpl. rewrite lookup_insert_eq. auto. }
    unfold bind at 1, lift_total. cbn [world logs frame].
    destruct (time_time (world st)) as [t w1].
    unfold bind at 1, lift. cbn [world logs frame].
    destruct (subprocess_run cmd w1) as [[cp | e] w2]; [| apply Hkept].
    destruct (returncode cp =? 0)%Z; [| apply Hkept].
    erewrite bind_ok by reflexivity.
    unfold bind at 1, lift. cbn [world logs frame].
    destruct (glob_sorted OUTPUT_DIR _ w2) as [[files | e] w3]; [| apply Hkept].
    destruct (last files) as [newest |]; [| apply Hkept].
    cbv zeta. unfold bind at 1, lift. cbn [world logs frame].
    destruct (path_exists _ w3) as [[present | e] w4]; [| apply Hkept].
    assert (Hfinal : forall w l found,
      match jobs_update job_id
              (fun j => mkJob completed (command j) (Some (path_name newest))
                          (Some found) (error j))
              (mkSt w l (mkApp (<[job_id := j1]> (JOBS (frame st))) (threads (frame st))))
      with
      | (Ok _, st') => job_done job_id (frame st) (frame st')
      | (Raise _, st') => job_kept job_id (frame st) (frame st')
      end).
    { intros w l found.
      erewrite jobs_update_ok by (simpl; apply lookup_insert_eq).
      intros j0 Hj0. rewrite Hj in Hj0. injection Hj0 as <-.
      eexists. simpl. rewrite lookup_insert_eq. split; [reflexivity |].
      simpl. repeat split; eauto. }
    destruct present.
    + unfold bind at 1. unfold bind at 1, lift. cbn [world logs frame].
      destruct (glob_sorted _ _ w4) as [[ps | e] w5]; [| apply Hkept].
      rewrite collect_pdfs_spec. cbn [world logs frame]. apply Hfinal.
    + erewrite bind_ok by reflexivity. apply Hfinal.
  - erewrite bind_raise by (unfold jobs_update; rewrite Hj; reflexivity).
    intros j0 Hj0. rewrite Hj in Hj0. discriminate Hj0.
Qed.

Lemma run_scraper_task_outcome (job_id : pystr) cmd (st : St App) (j : Job) :
  JOBS (frame st) !! job_id = Some j ->
  exists st' j',
    run_scraper_task job_id cmd st = (Ok tt, st')
    /\ JOBS (frame st') !! job_id = Some j'
    /\ command j' = command j
    /\ ((status j' = completed /\ is_Some (output_file j') /\ is_Some (pdfs j')
         /\ error j' = error j)
        \/ (status j' = failed /\ is_Some (error j')
            /\ output_file j' = output_file j /\ pdfs j' = pdfs j)).
Proof.
  intros Hj. unfold run_scraper_task, try_except.
  pose proof (scraper_try_effect job_id cmd st) as Heff.
  destruct (scraper_try job_id cmd st) as [[[] | e] s1].
  - destruct (Heff j Hj) as (j' & Hl & Hs & Hc & Ho & Hp & He).
    exists s1, j'. split; [reflexivity |]. split; [exact Hl |]. split; [exact Hc |].
    left. auto.
  - destruct (Heff j Hj) as (j' & Hl & Hc & Ho & Hp & He).
    erewrite jobs_update_ok by exact Hl.
    do 2 eexists. split; [reflexivity |]. simpl. rewrite lookup_insert_eq.
    split; [reflexivity |]. simpl. split; [exact Hc |]. right. eauto.
Qed.

End TaskFacts.

(** X11: [run_scraper_task] for a job id that is not in the registry raises
    [KeyError] out of its own handler and changes nothing: no process is
    started and the registry is as before. *)
Theorem run_scraper_task_unknown_job {H : Host}
    (job_id : pystr) (cmd : list (option pystr)) (st : St App) :
  JOBS (frame st) !! job_id = None ->
  run_scraper_task job_id cmd st = (Raise (Exn KeyError (py_repr job_id)), st).
Proof.
  intros Hj.
  assert (Eu : forall f, jobs_update job_id f st = (Raise (Exn KeyError (py_repr job_id)), st))
    by (intros f; unfold jobs_update; rewrite Hj; reflexivity).
  unfold run_scraper_task, try_except, scraper_try.
  rewrite (bind_raise _ _ _ _ _ (Eu _)). apply Eu.
Qed.

Lemma run_scraper_task_unknown_witness :
  run_scraper_task (H := Fake.host) Fake.job_id Fake.job_cmd
      (Fake.start Fake.blank Fake.no_jobs)
    = (Raise (Exn KeyError (py_repr (Host := Fake.host) Fake.job_id)),
       Fake.start Fake.blank Fake.no_jobs).
Proof.
  apply (run_scraper_task_unknown_job (H := Fake.host) Fake.job_id Fake.job_cmd
           (Fake.start Fake.blank Fake.no_jobs)).
  reflexivity.
Defined.

(** X12: [run_scraper_task] for a job that is in the registry raises nothing
    and leaves the job in a terminal state, whatever the engine and the file
    system do: completed with an output file and a PDF list, or failed with an
    error message and without them; its command is kept. Every other job and
    the thread list are as before. *)
Theorem run_scraper_task_terminal {H : Host}
    (job_id : pystr) (cmd : list (option pystr)) (st : St App) (j : Job) :
  JOBS (frame st) !! job_id = Some j ->
  exists st' j',
    run_scraper_task job_id cmd st = (Ok tt, st')
    /\ JOBS (frame st') !! job_id = Some j'
    /\ command j' = command j
    /\ ((status j' = completed /\ is_Some (output_file j') /\ is_Some (pdfs j')
         /\ error j' = error j)
        \/ (status j' = failed /\ is_Some (error j')
            /\ output_file j' = output_file j /\ pdfs j' = pdfs j))
    /\ (forall other, other <> job_id ->
          JOBS (frame st') !! other = JOBS (frame st) !! other)
    /\ threads (frame st') = threads (frame st).
Proof.
  intros Hj.
  destruct (run_scraper_task_outcome job_id cmd st j Hj) as (st' & j' & E & Hl & Hc & Hs).
  assert (Hrest : rest_of_registry job_id (frame st) (frame st')).
  { pose proof (inv_run_scraper_task job_id cmd (frame st) st) as Hi.
    rewrite E in Hi. apply Hi. split; [intros; reflexivity | reflexivity]. }
  destruct Hrest as [Ho Ht].
  exists st', j'. repeat split; assumption.
Qed.

Lemma run_scraper_task_terminal_witness :
  exists st' j',
    run_scraper_task (H := Fake.host) Fake.job_id Fake.job_cmd
        (Fake.start Fake.after_run Fake.one_job) = (Ok tt, st')
    /\ JOBS (frame st') !! Fake.job_id = Some j'
    /\ command j' = command Fake.pending_job
    /\ ((status j' = completed /\ is_Some (output_file j') /\ is_Some (pdfs j')
         /\ error j' = error Fake.pending_job)
        \/ (status j' = failed /\ is_Some (error j')
            /\ output_file j' = output_file Fake.pending_job
            /\ pdfs j' = pdfs Fake.pending_job))
    /\ (forall other, other <> Fake.job_id ->
          JOBS (frame st') !! other
          = JOBS (frame (Fake.start Fake.after_run Fake.one_job)) !! other)
    /\ threads (frame st') = threads (frame (Fake.start Fake.after_run Fake.one_job)).
Proof.
  apply (run_scraper_task_terminal (H := Fake.host) Fake.job_id Fake.job_cmd
           (Fake.start Fake.after_run Fake.one_job) Fake.pending_job).
  vm_compute. reflexivity.
Defined.

(** X13: when the engine process ends with a non-zero status, the job is
    marked failed with the engine's standard error as its message, and the
    output directory is not even searched: the world is the one the process
    left. *)
Theorem engine_failure_marks_failed {H : Host}
    (job_id : pystr) (cmd : list (option pystr)) (st : St App) (j : Job)
    (t : float) (w1 : World) (cp : CompletedProcess) (w2 : World) :
  JOBS (frame st) !! job_id = Some j ->
  time_time (world st) = (t, w1) ->
  subprocess_run cmd w1 = (Ok cp, w2) ->
  returncode cp <> 0%Z ->
  run_scraper_task job_id cmd st
    = (Ok tt,
       mkSt w2 (logs st)
         (mkApp
            (<[job_id := mkJob failed (command j) (output_file j) (pdfs j)
                           (Some (stderr cp))]> (JOBS (frame st)))
            (threads (frame st)))).
Proof.
  intros Hj Et Er Hrc. apply Z.eqb_neq in Hrc.
  unfold run_scraper_task, try_except, scraper_try.
  rewrite (bind_ok _ _ _ _ _ (jobs_update_ok _ _ _ _ Hj)).
  run_op Et. run_op Er. rewrite Hrc.
  erewrite bind_raise by reflexivity.
  erewrite jobs_update_ok by (cbn [frame JOBS]; apply lookup_insert_eq).
  cbn [world logs frame JOBS threads command output_file pdfs error exn_str].
  rewrite insert_insert_eq. reflexivity.
Qed.

Lemma engine_failure_witness :
  run_scraper_task (H := Fake.host) Fake.job_id Fake.job_cmd
      (Fake.start Scene.engine_crashed Fake.one_job)
    = (Ok tt,
       mkSt (H := Fake.host) Scene.engine_crashed
         (logs (Fake.start Scene.engine_crashed Fake.one_job))
         (mkApp
            (<[Fake.job_id :=
                 mkJob failed (command Fake.pending_job) (output_file Fake.pending_job)
                   (pdfs Fake.pending_job)
                   (Some (stderr (mkCompleted 2 [] (lit "usage: main.py"))))]>
               (JOBS (frame (Fake.start Scene.engine_crashed Fake.one_job))))
            (threads (frame (Fake.start Scene.engine_crashed Fake.one_job))))).
Proof.
  apply (engine_failure_marks_failed (H := Fake.host) Fake.job_id Fake.job_cmd
           (Fake.start Scene.engine_crashed Fake.one_job) Fake.pending_job
           1730000000.5%float Scene.engine_crashed
           (mkCompleted 2 [] (lit "usage: main.py")) Scene.engine_crashed).
  - vm_compute. reflexivity.
  - reflexivity.
  - reflexivity.
  - discriminate.
Defined.

(** X14: whatever the form holds and whether it succeeds or raises,
    [run_job] adds no log record, changes no entry of the registry but the one
    of the identifier it drew, and removes no thread. It does not check
    whether that identifier is already in use: on success the entry of the
    identifier carries the command of this request, whatever was there. *)
Theorem run_job_keeps_other_jobs {H : Host}
    (form : gmap pystr pystr) (st : St App) :
  logs (snd (run_job form st)) = logs st
  /\ (forall other, other <> fst (uuid4_hex10 (world st)) ->
        JOBS (frame (snd (run_job form st))) !! other = JOBS (frame st) !! other)
  /\ (exists started,
        threads (frame (snd (run_job form st))) = threads (frame st) ++ started)
  /\ (forall reply, fst (run_job form st) = Ok reply ->
        reply = RedirectToStatus (fst (uuid4_hex10 (world st)))
        /\ exists j,
             JOBS (frame (snd (run_job form st))) !! fst (uuid4_hex10 (world st)) = Some j
             /\ str_join (lit " ") (build_cmd form (fst (uuid4_hex10 (world st))))
                = Ok (command j)).
Proof.
  rewrite run_job_eq.
  destruct (uuid4_hex10 (world st)) as [job_id w].
  destruct (str_join (lit " ") (build_cmd form job_id)) as [joined | e] eqn:Ej;
    cbn [fst snd logs frame JOBS threads].
  - split; [reflexivity | split; [| split]].
    + intros other Hne. apply lookup_insert_ne. congruence.
    + eexists. reflexivity.
    + intros reply [= <-]. split; [reflexivity |].
      eexists. split; [apply lookup_insert_eq | exact Ej].
  - split; [reflexivity | split; [reflexivity | split]].
    + exists []. now rewrite app_nil_r.
    + discriminate.
Qed.



(** ** Further properties of the helpers of the orchestrator *)

Lemma all_strs_some (i : nat) (l : list pystr) : all_strs i (List.map Some l) = inl l.
Proof.
  revert i. induction l as [| x l IH]; intros i; simpl; [reflexivity |].
  now rewrite IH.
Qed.

Lemma all_strs_none (xs : list (option pystr)) (i : nat) :
  (exists k, all_strs i xs = inr k) <-> In None xs.
Proof.
  revert i. induction xs as [| [x |] xs IH]; intros i; simpl.
  - split; [intros (k & E); discriminate E | intros []].
  - specialize (IH (S i)). destruct (all_strs (S i) xs) as [l | k].
    + split; [intros (k & E); discriminate E |].
      intros [E | Hin]; [discriminate E |].
      apply IH in Hin as (k & E). discriminate E.
    + split; [intros _; right; apply IH; eauto | eauto].
  - split; [auto | eauto].
Qed.

(** [sep.join] of a list succeeds exactly when no item is [None]; on a
    list of strings it returns them with the separator between neighbours, and
    any failure is a [TypeError]. *)
Theorem str_join_spec (sep : pystr) (xs : list (option pystr)) :
  ((exists e, str_join sep xs = Raise e) <-> In None xs)
  /\ (forall e, str_join sep xs = Raise e -> exn_cls e = TypeError)
  /\ (forall l, xs = List.map Some l -> str_join sep xs = Ok (join_strs sep l)).
Proof.
  unfold str_join. split; [| split].
  - rewrite <- (all_strs_none xs 0).
    destruct (all_strs 0 xs) as [l | k].
    + split; intros (k & E); discriminate E.
    + split; eauto.
  - intros e. destruct (all_strs 0 xs); [discriminate |]. intros [= <-]. reflexivity.
  - intros l ->. now rewrite all_strs_some.
Qed.

Section ListingFacts.
Context {H : Host}.

Lemma stat_all_paths (ps : list Path) (w : World) :
  List.map fst (fst (stat_all ps w)) = ps.
Proof.
  revert w. induction ps as [| p rest IH]; intros w; simpl; [reflexivity |].
  destruct (stat_mtime p w) as [r w1]. specialize (IH w1).
  destruct (stat_all rest w1) as [l w2]. simpl in *. now rewrite IH.
Qed.

Lemma window_names_sublist (start_time : float) (stats : list (Path * Res float)) :
  sublist (window_names start_time stats) (List.map (fun x => path_name (fst x)) stats).
Proof.
  unfold window_names. induction stats as [| [p [m | e]] rest IH]; simpl.
  - constructor.
  - destruct (in_job_window start_time m); simpl;
      [apply sublist_skip | apply sublist_cons]; exact IH.
  - apply sublist_cons. exact IH.
Qed.

End ListingFacts.

(** X16: the scan of the PDF area raises nothing, even when a file cannot be
    examined: it appends to the list it was given a subsequence, in listing
    order, of the names of the listed files, and adds no log record. *)
Theorem collect_pdfs_in_listing_order {H : Host} {L}
    (ps : list Path) (start_time : float) (acc : list pystr) (st : St L) :
  exists found st',
    collect_pdfs ps start_time acc st = (Ok (acc ++ found), st')
    /\ sublist found (List.map path_name ps)
    /\ logs st' = logs st /\ frame st' = frame st.
Proof.
  rewrite collect_pdfs_spec. do 2 eexists. split; [reflexivity |].
  split; [| split; reflexivity].
  pose proof (window_names_sublist start_time (fst (stat_all ps (world st)))) as Hs.
  rewrite <- (stat_all_paths ps (world st)) at 2.
  rewrite List.map_map. exact Hs.
Qed.

(** X17: [run_job] raises exactly when the state, district, complex or date
    field is absent from the form, and what it raises then is a [TypeError];
    an empty field is not a reason to raise. *)
Theorem run_job_raises_iff_field_absent {H : Host}
    (form : gmap pystr pystr) (st : St App) :
  ((exists e, fst (run_job form st) = Raise e) <->
   form !! lit "state" = None \/ form !! lit "district" = None
   \/ form !! lit "complex" = None \/ form !! lit "date" = None)
  /\ (forall e, fst (run_job form st) = Raise e -> exn_cls e = TypeError).
Proof.
  rewrite run_job_eq.
  destruct (uuid4_hex10 (world st)) as [job_id w].
  destruct (str_join_spec (lit " ") (build_cmd form job_id)) as (Hiff & Hcls & _).
  assert (Hin : In None (build_cmd form job_id) <->
                form !! lit "state" = None \/ form !! lit "district" = None
                \/ form !! lit "complex" = None \/ form !! lit "date" = None).
  { unfold build_cmd. cbn [In]. split.
    - intros Hin.
      repeat (destruct Hin as [E | Hin]; [try discriminate E; auto |]).
      contradiction.
    - intros [E | [E | [E | E]]]; rewrite E;
        repeat (first [left; reflexivity | right]). }
  rewrite <- Hin, <- Hiff.
  destruct (str_join (lit " ") (build_cmd form job_id)) as [joined | e];
    cbn [fst]; split.
  - split; intros (e & E); discriminate E.
  - discriminate.
  - split; intros _; eauto.
  - intros e0 [= <-]. apply Hcls. reflexivity.
Qed.

(** ** Submission of an incomplete request *)
Section RejectionFacts.
Context {H : Host}.

Lemma build_cmd_has_none (form : gmap pystr pystr) (job_id : pystr) :
  In None (build_cmd form job_id) <->
  form !! lit "state" = None \/ form !! lit "district" = None
  \/ form !! lit "complex" = None \/ form !! lit "date" = None.
Proof.
  unfold build_cmd. cbn [In]. split.
  - intros Hin.
    repeat (destruct Hin as [E | Hin]; [try discriminate E; auto |]).
    contradiction.
  - intros [E | [E | [E | E]]]; rewrite E;
      repeat (first [left; reflexivity | right]).
Qed.

Lemma main_rejected_run {L} (args : Args) (st st1 : St L) (date_str : pystr)
    (w2 w3 w4 w5 : World) (now : DateTime) (w6 w7 w8 : World)
    (r : Res unit) (w9 : World) :
  truthy_opt (a_cnr args) = false ->
  a_causelist args = true ->
  truthy_opt (a_state args) = false \/ truthy_opt (a_district args) = false
    \/ truthy_opt (a_complex args) = false ->
  get_date_to_check args st = (Ok date_str, st1) ->
  playwright_enter (world st1) = (Ok tt, w2) ->
  chromium_launch (a_headless args) w2 = (Ok tt, w3) ->
  new_context w3 = (Ok tt, w4) ->
  new_page w4 = (Ok tt, w5) ->
  datetime_now w5 = (now, w6) ->
  context_close w6 = (Ok tt, w7) ->
  browser_close w7 = (Ok tt, w8) ->
  playwright_exit w8 = (r, w9) ->
  main args st
    = (r,
       mkSt w9
         (logs st1
            ++ [Log ERROR (lit "[!] --causelist requires --state, --district, and --complex")
                  false])
         (frame st1)).
Proof.
  intros Hcnr Hcl Hmiss Ed Ee El Ec Ep En Ecc Ebc Ex.
  unfold main. rewrite (bind_ok _ _ _ _ _ Ed).
  run_op Ee. unfold try_finally.
  run_op El. run_op Ec. run_op Ep. run_op En. cbv zeta.
  rewrite (bind_ok _ _ _ _ _ (main_action_rejected args date_str _ Hcnr Hcl Hmiss)).
  cbn [result_data_nonempty cases_found cause_list].
  erewrite bind_ok by reflexivity.
  run_op Ecc.
  unfold lift. cbn [world logs frame]. rewrite Ebc. cbn [world logs frame]. rewrite Ex.
  destruct r as [[] | e]; reflexivity.
Qed.

End RejectionFacts.

(** C1, as the code has it: [run_job] does not inspect the fields. When the
    state, district, complex or date field is absent from the form, joining
    the command raises [TypeError] and the registry and the thread list are left
    as they were. When the four fields are present, empty or not, a job entry
    is stored under the new identifier, with the joined command, and the job's
    thread is started. The completeness check is made by the engine's [main]:
    for a cause-list request without CNR whose state, district or complex is
    missing or empty, and a browser session that opens and closes normally,
    [main] logs the one error and touches nothing but the session: it starts
    no flow, prints nothing and saves no result document. *)
Theorem incomplete_causelist_submission {H : Host}
    (form : gmap pystr pystr) (st : St App) :
  (form !! lit "state" = None \/ form !! lit "district" = None
     \/ form !! lit "complex" = None \/ form !! lit "date" = None ->
   exists e w,
     run_job form st = (Raise e, mkSt w (logs st) (frame st))
     /\ exn_cls e = TypeError)
  /\ (forall s d c dt : pystr,
        form !! lit "state" = Some s -> form !! lit "district" = Some d ->
        form !! lit "complex" = Some c -> form !! lit "date" = Some dt ->
        exists job_id st' j,
          run_job form st = (Ok (RedirectToStatus job_id), st')
          /\ JOBS (frame st') !! job_id = Some j
          /\ str_join (lit " ") (build_cmd form job_id) = Ok (command j)
          /\ threads (frame st') = threads (frame st) ++ [(job_id, build_cmd form job_id)])
  /\ (forall (L : Type) (args : Args) (se se1 : St L) (date_str : pystr)
             (w2 w3 w4 w5 : World) (now : DateTime) (w6 w7 w8 : World)
             (r : Res unit) (w9 : World),
        truthy_opt (a_cnr args) = false ->
        a_causelist args = true ->
        truthy_opt (a_state args) = false \/ truthy_opt (a_district args) = false
          \/ truthy_opt (a_complex args) = false ->
        get_date_to_check args se = (Ok date_str, se1) ->
        playwright_enter (world se1) = (Ok tt, w2) ->
        chromium_launch (a_headless args) w2 = (Ok tt, w3) ->
        new_context w3 = (Ok tt, w4) ->
        new_page w4 = (Ok tt, w5) ->
        datetime_now w5 = (now, w6) ->
        context_close w6 = (Ok tt, w7) ->
        browser_close w7 = (Ok tt, w8) ->
        playwright_exit w8 = (r, w9) ->
        main args se
          = (r,
             mkSt w9
               (logs se1
                  ++ [Log ERROR
                        (lit "[!] --causelist requires --state, --district, and --complex")
                        false])
               (frame se1))).
Proof.
  split; [| split].
  - intros Hmiss. rewrite run_job_eq.
    destruct (uuid4_hex10 (world st)) as [job_id w].
    apply (build_cmd_has_none form job_id) in Hmiss.
    apply (str_join_spec (lit " ")) in Hmiss as [e Ee].
    rewrite Ee. exists e, w. split; [reflexivity |].
    apply (str_join_spec (lit " ") (build_cmd form job_id)). exact Ee.
  - intros s d c dt Es Ed Ec Edt. rewrite run_job_eq.
    destruct (uuid4_hex10 (world st)) as [job_id w].
    destruct (str_join_present form job_id s d c dt Es Ed Ec Edt) as (joined & Ej).
    rewrite Ej. do 3 eexists. split; [reflexivity |]. cbn [frame JOBS threads].
    split; [apply lookup_insert_eq |]. split; [exact Ej | reflexivity].
  - intros L args se se1 date_str w2 w3 w4 w5 now w6 w7 w8 r w9.
    apply main_rejected_run.
Qed.

Lemma incomplete_causelist_submission_witness :
  (exists e w,
     run_job (H := Fake.host) Scene.no_date_form (Fake.start Fake.blank Fake.no_jobs)
       = (Raise e, mkSt (H := Fake.host) w [] Fake.no_jobs)
     /\ exn_cls e = TypeError)
  /\ (exists job_id st' j,
        run_job (H := Fake.host) Fake.empty_state_form (Fake.start Fake.blank Fake.no_jobs)
          = (Ok (RedirectToStatus job_id), st')
        /\ JOBS (frame st') !! job_id = Some j
        /\ str_join (lit " ") (build_cmd Fake.empty_state_form job_id) = Ok (command j)
        /\ threads (frame st')
           = [] ++ [(job_id, build_cmd Fake.empty_state_form job_id)])
  /\ main (H := Fake.host) Scene.empty_district_args (Fake.start Fake.blank tt)
     = (Ok tt,
        mkSt (H := Fake.host) Fake.blank
          ([] ++ [Log ERROR
                    (lit "[!] --causelist requires --state, --district, and --complex")
                    false])
          tt).
Proof.
  split; [| split].
  - apply (proj1 (incomplete_causelist_submission (H := Fake.host) Scene.no_date_form
                    (Fake.start Fake.blank Fake.no_jobs))).
    right. right. right. vm_compute. reflexivity.
  - apply (proj1 (proj2 (incomplete_causelist_submission (H := Fake.host)
                           Fake.empty_state_form (Fake.start Fake.blank Fake.no_jobs)))
             [] Fake.new_delhi Fake.tis_hazari Fake.day);
      vm_compute; reflexivity.
  - apply (proj2 (proj2 (incomplete_causelist_submission (H := Fake.host)
                           Fake.empty_state_form (Fake.start Fake.blank Fake.no_jobs)))
             unit Scene.empty_district_args (Fake.start Fake.blank tt)
             (Fake.start Fake.blank tt) (lit "0")
             Fake.blank Fake.blank Fake.blank Fake.blank 0%Z Fake.blank Fake.blank
             Fake.blank (Ok tt) Fake.blank);
      first [reflexivity | (right; left; reflexivity) | (vm_compute; reflexivity)].
Defined.

(** ** Judge entries and the links they come from *)
Section LinkFacts.
Context {H : Host}.
Variable href_of : Element -> option pystr.
Variable text_of : Element -> pystr.
Hypothesis Hattr :
  forall link w, elem_get_attribute link (lit "href") w = (Ok (href_of link), w).
Hypothesis Htext : forall link w, elem_inner_text link w = (Ok (text_of link), w).

Lemma download_attachment_outcome {L} (url : pystr) (filename : Path) (st : St L) :
  exists r st',
    download_attachment url filename st = (Ok r, st')
    /\ (r = None \/ r = Some filename)
    /\ frame st' = frame st.
Proof.
  pose proof (download_attachment_result (fun l => l = frame st) url filename st eq_refl)
    as [Hf Hr].
  assert (Hok : exists r, fst (download_attachment url filename st) = Ok r).
  { unfold download_attachment, try_except.
    destruct (bind _ _ st) as [[r | e] st1]; simpl; [eauto |].
    unfold bind, logging_error, ret. simpl. eauto. }
  destruct Hok as [r Er].
  destruct (download_attachment url filename st) as [r0 st'] eqn:E. simpl in *. subst r0.
  exists r, st'. split; [reflexivity |]. split; [apply Hr; reflexivity | exact Hf].
Qed.

(** The entry the loop body makes of the link at position [i]. *)
Definition entry_for (complex_name date_str : pystr) (download_pdfs : bool)
    (i : nat) (link : Element) (e : JudgeEntry) : Prop :=
  judge_text e
    = (if truthy (strip (text_of link)) then strip (text_of link)
       else lit "Judge_" ++ str_of_nat (i + 1))
  /\ judge_pdf_link e = href_of link
  /\ (judge_downloaded_pdf e = None
      \/ (download_pdfs = true /\ truthy_opt (href_of link) = true
          /\ judge_downloaded_pdf e
             = Some (path_str
                       (path_div PDF_DIR
                          (date_str ++ lit "_" ++ complex_name ++ lit "_"
                             ++ sanitize (judge_text e) ++ lit ".pdf"))))).

Lemma judge_link_step complex_name date_str dl idx link (st : St CauseList) :
  exists e st',
    judge_link complex_name date_str dl idx link st = (Ok tt, st')
    /\ cl_judges (frame st') = cl_judges (frame st) ++ [e]
    /\ entry_for complex_name date_str dl idx link e.
Proof.
  unfold judge_link.
  erewrite bind_ok
    by (unfold lift; cbn [world logs frame]; rewrite Hattr; reflexivity).
  erewrite bind_ok
    by (unfold lift; cbn [world logs frame]; rewrite Htext; reflexivity).
  cbv zeta.
  set (label := if truthy (strip (text_of link)) then strip (text_of link)
                else lit "Judge_" ++ str_of_nat (idx + 1)).
  assert (Hplain : entry_for complex_name date_str dl idx link
                     (mkJudgeEntry label (href_of link) None)).
  { split; [reflexivity | split; [reflexivity | left; reflexivity]]. }
  destruct (href_of link) as [url |] eqn:Eh;
    [| do 2 eexists; split; [reflexivity |]; split; [reflexivity | exact Hplain]].
  destruct (dl && truthy url) eqn:Ed;
    [| do 2 eexists; split; [reflexivity |]; split; [reflexivity | exact Hplain]].
  apply andb_true_iff in Ed as [Edl Eurl].
  match goal with
  | |- context [download_attachment ?u ?f ] =>
      match goal with
      | |- context [bind _ _ ?s0] =>
          destruct (download_attachment_outcome (L := CauseList) u f s0)
            as (saved & s1 & Edown & Hsaved & Hfr)
      end
  end.
  unfold bind at 1. rewrite (bind_ok _ _ _ _ _ Edown).
  cbn [frame] in Hfr.
  destruct Hsaved as [-> | ->].
  - do 2 eexists. split; [reflexivity |]. cbn [frame cl_judges snd]. rewrite Hfr.
    split; [reflexivity | exact Hplain].
  - do 2 eexists. split; [reflexivity |]. cbn [frame cl_judges snd]. rewrite Hfr.
    split; [reflexivity |].
    split; [reflexivity | split; [symmetry; exact Eh | right]].
    split; [exact Edl | split; [rewrite Eh; exact Eurl | reflexivity]].
Qed.

Lemma judge_links_loop complex_name date_str dl (links : list Element) :
  forall idx (st : St CauseList),
    exists entries st',
      for_each_from idx links (judge_link complex_name date_str dl) st = (Ok tt, st')
      /\ cl_judges (frame st') = cl_judges (frame st) ++ entries
      /\ length entries = length links
      /\ (forall i link, links !! i = Some link ->
            exists e, entries !! i = Some e
                      /\ entry_for complex_name date_str dl (idx + i) link e).
Proof.
  induction links as [| link rest IH]; intros idx st; simpl.
  - exists [], st. split; [reflexivity |]. split; [now rewrite app_nil_r |].
    split; [reflexivity |]. intros i link Hi. discriminate Hi.
  - destruct (judge_link_step complex_name date_str dl idx link st)
      as (e & s1 & E1 & Hj & He).
    destruct (IH (S idx) s1) as (entries & s2 & E2 & Hj2 & Hlen & Hall).
    exists (e :: entries), s2.
    split; [rewrite (bind_ok _ _ _ _ _ E1); exact E2 |].
    split; [rewrite Hj2, Hj, <- app_assoc; reflexivity |].
    split; [simpl; now rewrite Hlen |].
    intros [| i] l Hi; simpl in Hi.
    + injection Hi as <-. exists e. split; [reflexivity |].
      now rewrite Nat.add_0_r.
    + destruct (Hall i l Hi) as (e' & He' & Hq). exists e'. split; [exact He' |].
      now rewrite Nat.add_succ_r.
Qed.

End LinkFacts.

(** X5: on a host where the text and the [href] of an element are read
    without raising, the form was submitted and the page lists [links] as its
    PDF anchors. Then the record returned has one judge entry per anchor, in
    document order, and the entry at position [i] has the stripped text of
    anchor [i] as its label, or [Judge_<i+1>] when that is blank, and the
    [href] of anchor [i] as its link; it carries a saved path only when
    downloads were asked for and the link is not empty, and the path is then
    the PDF directory joined with [<date>_<complex>_<sanitized label>.pdf]. *)
Theorem causelist_entries_follow_links {H : Host} {L}
    (href_of : Element -> option pystr) (text_of : Element -> pystr)
    (s d c dt : pystr) (dl : bool) (st : St L) (st1 : St CauseList)
    (links : list Element) (w2 : World) :
  (forall link w, elem_get_attribute link (lit "href") w = (Ok (href_of link), w)) ->
  (forall link w, elem_inner_text link w = (Ok (text_of link), w)) ->
  causelist_form s d c dt (mkSt (world st) (logs st) (mkCauseList s d c dt []))
    = (Ok tt, st1) ->
  page_query_selector_all PDF_ANCHOR (world st1) = (Ok links, w2) ->
  exists judges st',
    download_causelist_for_complex s d c dt dl st
      = (Ok (mkCauseList s d c dt judges), st')
    /\ length judges = length links
    /\ (forall i link, links !! i = Some link ->
          exists e,
            judges !! i = Some e
            /\ judge_text e
               = (if truthy (strip (text_of link)) then strip (text_of link)
                  else lit "Judge_" ++ str_of_nat (i + 1))
            /\ judge_pdf_link e = href_of link
            /\ (judge_downloaded_pdf e = None
                \/ (dl = true /\ truthy_opt (href_of link) = true
                    /\ judge_downloaded_pdf e
                       = Some (path_str
                                 (path_div PDF_DIR
                                    (dt ++ lit "_" ++ c ++ lit "_"
                                       ++ sanitize (judge_text e) ++ lit ".pdf")))))).
Proof.
  intros Hattr Htext Ef Eq.
  assert (Hf : frame st1 = mkCauseList s d c dt []).
  { pose proof (inv_causelist_form (fun l => l = mkCauseList s d c dt []) s d c dt
                  (mkSt (world st) (logs st) (mkCauseList s d c dt [])) eq_refl) as Hs.
    rewrite Ef in Hs. exact Hs. }
  set (s2 := mkSt w2
               (logs st1 ++ [Log INFO (lit "Found " ++ str_of_nat (length links)
                                         ++ lit " judge cause list PDFs.") false])
               (frame st1)).
  destruct (judge_links_loop href_of text_of Hattr Htext c dt dl links 0 s2)
    as (entries & s3 & Eloop & Hj & Hlen & Hall).
  assert (Es : causelist_scrape c dt dl st1 = (Ok tt, s3)).
  { unfold causelist_scrape.
    erewrite bind_ok by (apply lift_eq; exact Eq).
    erewrite bind_ok by reflexivity. exact Eloop. }
  assert (Hinv : same_request s d c dt (frame s3)).
  { pose proof (inv_causelist_scrape s d c dt c dt dl st1) as Hi.
    rewrite Es in Hi. apply Hi. rewrite Hf. repeat split. }
  unfold s2 in Hj. cbn [frame] in Hj. rewrite Hf in Hj. cbn [cl_judges app] in Hj.
  exists entries, (mkSt (world s3) (logs s3) (frame st)).
  split; [| split; [exact Hlen | exact Hall]].
  unfold download_causelist_for_complex, with_local, bind at 1, try_except.
  rewrite (bind_ok _ _ _ _ _ Ef), Es. cbn [get_frame].
  rewrite (same_request_eq _ _ _ _ _ Hinv), Hj. reflexivity.
Qed.

Lemma causelist_entries_follow_links_witness :
  exists judges st',
    download_causelist_for_complex (H := Fake.host) Fake.delhi Fake.new_delhi
        Fake.tis_hazari Fake.day true (Fake.start Scene.two_judges_saved tt)
      = (Ok (mkCauseList Fake.delhi Fake.new_delhi Fake.tis_hazari Fake.day judges), st')
    /\ length judges = length (Fake.page_elements Scene.two_judges_saved)
    /\ (forall i (link : Fake.Elem),
          Fake.page_elements Scene.two_judges_saved !! i = Some link ->
          exists e,
            judges !! i = Some e
            /\ judge_text e
               = (if truthy (strip (Fake.elem_text link)) then strip (Fake.elem_text link)
                  else lit "Judge_" ++ str_of_nat (i + 1))
            /\ judge_pdf_link e = Fake.elem_href link
            /\ (judge_downloaded_pdf e = None
                \/ (true = true /\ truthy_opt (Fake.elem_href link) = true
                    /\ judge_downloaded_pdf e
                       = Some (path_str (Host := Fake.host)
                                 (path_div (Host := Fake.host) PDF_DIR
                                    (Fake.day ++ lit "_" ++ Fake.tis_hazari ++ lit "_"
                                       ++ sanitize (H := Fake.host) (judge_text e)
                                       ++ lit ".pdf")))))).
Proof.
  apply (causelist_entries_follow_links (H := Fake.host) Fake.elem_href Fake.elem_text
           Fake.delhi Fake.new_delhi Fake.tis_hazari Fake.day true
           (Fake.start Scene.two_judges_saved tt)
           (mkSt (H := Fake.host) Scene.two_judges_saved
              [Log INFO
                 (lit "Fetching cause list for Tis Hazari, New Delhi, Delhi on 2025-10-18")
                 false]
              (mkCauseList Fake.delhi Fake.new_delhi Fake.tis_hazari Fake.day []))
           (Fake.page_elements Scene.two_judges_saved) Scene.two_judges_saved).
  - intros link w. reflexivity.
  - intros link w. reflexivity.
  - vm_compute. reflexivity.
  - reflexivity.
Defined.

(** On the scripted page with two judge links whose downloads answer 200:
    the first PDF is saved under the sanitized label, the second under
    [Judge_2]. *)
Example two_judges_saved_paths :
  fst (download_causelist_for_complex (H := Fake.host) Fake.delhi Fake.new_delhi
         Fake.tis_hazari Fake.day true (Fake.start Scene.two_judges_saved tt))
  = Ok (mkCauseList Fake.delhi Fake.new_delhi Fake.tis_hazari Fake.day
          [mkJudgeEntry (lit "Hon'ble J. Smith/Court-2") (Some (lit "/cl/smith.pdf"))
             (Some (lit "outputs/pdfs/2025-10-18_Tis Hazari_Honble J. SmithCourt2.pdf"));
           mkJudgeEntry (lit "Judge_2") (Some (lit "/cl/other.pdf"))
             (Some (lit "outputs/pdfs/2025-10-18_Tis Hazari_Judge2.pdf"))]).
Proof. vm_compute. reflexivity. Qed.
